(** * coefficient-now-bot: the polling scheduler and the settings handlers

    A shallow embedding of [main.py]: the Python primitives the handlers
    rely on, the three tables of the store, the per-user check with its
    effects, the scheduler loop and the callback handlers, followed by the
    properties of the specification. *)

From Stdlib Require Import ZArith QArith List String Ascii Bool Lia.
From Stdlib Require Import DecimalString DecimalPos DecimalZ.
Import ListNotations.
Local Open Scope Z_scope.

(** ** Python primitives *)

Module Py.

(** The exceptions that the modelled statements can raise. *)
Inductive exn : Set :=
| ValueError
| TypeError
| IndexError
| ZeroDivisionError
| ClientError
| CheckViolationError
| NotNullViolationError
| UniqueViolationError.

Inductive result (A : Type) : Type :=
| Ok (a : A)
| Raise (e : exn).
Arguments Ok {A} a.
Arguments Raise {A} e.

(** [a % b] on ints: the remainder has the sign of the divisor, and a zero
    divisor raises. *)
Definition mod_ (a b : Z) : result Z :=
  if b =? 0 then Raise ZeroDivisionError else Ok (a mod b).

(** [l[i]] with Python's negative indices. *)
Definition index {A} (l : list A) (i : Z) : result A :=
  let len := Z.of_nat (List.length l) in
  let j := if i <? 0 then i + len else i in
  if (j <? 0) || (len <=? j) then Raise IndexError
  else match nth_error l (Z.to_nat j) with
       | Some a => Ok a
       | None => Raise IndexError
       end.

(** [l[start:stop]]: both bounds are clamped into [0, len]. *)
Definition clamp (len i : Z) : Z :=
  if i <? 0 then Z.max (i + len) 0 else Z.min i len.

Definition slice {A} (l : list A) (start stop : Z) : list A :=
  let len := Z.of_nat (List.length l) in
  let a := clamp len start in
  let b := clamp len stop in
  firstn (Z.to_nat (b - a)) (skipn (Z.to_nat a) l).

(** [x in l] and [l.remove(x)] (first occurrence) on lists of ints. *)
Definition mem (x : Z) (l : list Z) : bool := existsb (Z.eqb x) l.

Fixpoint remove (x : Z) (l : list Z) : list Z :=
  match l with
  | [] => []
  | y :: r => if y =? x then r else y :: remove x r
  end.

(** Strings are sequences of ASCII characters: the callback tokens are
    built from ASCII literals and decimal numerals, and names are kept as
    the bytes of their UTF-8 encoding, on which the substring test agrees
    with the one on code points. *)

(** [s.split(sep)] for a one-character separator. *)
Fixpoint split (sep : ascii) (s : string) : list string :=
  match s with
  | EmptyString => [EmptyString]
  | String c r =>
      if Ascii.eqb c sep then EmptyString :: split sep r
      else match split sep r with
           | [] => [String c EmptyString]
           | h :: t => String c h :: t
           end
  end.

(** [s.startswith(p)]. *)
Definition startswith (s p : string) : bool := String.prefix p s.

(** [needle in hay]. *)
Fixpoint contains (needle hay : string) : bool :=
  if String.prefix needle hay then true
  else match hay with
       | EmptyString => false
       | String _ r => contains needle r
       end.

(** [int(s)] for a str of ASCII characters: surrounding whitespace (tab to
    carriage return, and the space) is dropped, one sign is allowed, then
    decimal digits with single underscores between them. The decimal digits
    and the spaces that Unicode has outside ASCII, which [int] reads as well,
    are not digits or spaces here. *)
Definition is_space (c : ascii) : bool :=
  let n := N_of_ascii c in
  (((9 <=? n) && (n <=? 13)) || (n =? 32))%N.

Fixpoint lstrip (l : list ascii) : list ascii :=
  match l with
  | c :: r => if is_space c then lstrip r else l
  | [] => []
  end.

Definition strip (l : list ascii) : list ascii :=
  rev (lstrip (rev (lstrip l))).

Definition digit (c : ascii) : option Z :=
  let n := Z.of_N (N_of_ascii c) in
  if (48 <=? n) && (n <=? 57) then Some (n - 48) else None.

Fixpoint digits (acc : Z) (after_digit : bool) (l : list ascii) : option Z :=
  match l with
  | [] => if after_digit then Some acc else None
  | c :: r =>
      if Ascii.eqb c "_" then
        if after_digit then digits acc false r else None
      else match digit c with
           | Some d => digits (10 * acc + d) true r
           | None => None
           end
  end.

Definition int_of_str (s : string) : result Z :=
  let l := strip (list_ascii_of_string s) in
  let parsed :=
    match l with
    | "+"%char :: r => digits 0 false r
    | "-"%char :: r => option_map Z.opp (digits 0 false r)
    | _ => digits 0 false l
    end in
  match parsed with
  | Some z => Ok z
  | None => Raise ValueError
  end.

(** [str(z)], as the f-strings of the callback tokens render an int. *)
Definition str_of_int (z : Z) : string :=
  NilZero.string_of_int (Z.to_int z).

(** A JSON number is an int or a finite float; a finite float is the
    rational it denotes, so that comparisons with ints are exact, as they
    are in Python. *)
Inductive number : Set :=
| PyInt (z : Z)
| PyFloat (q : Q).

Definition value (n : number) : Q :=
  match n with
  | PyInt z => inject_Z z
  | PyFloat q => q
  end.

(** [int(x)] on a number truncates towards zero. *)
Definition int_of_number (n : number) : Z :=
  match n with
  | PyInt z => z
  | PyFloat q => Z.quot (Qnum q) (Z.pos (Qden q))
  end.

(** What [float(s)] returns on a str. *)
Inductive pyfloat : Set :=
| Finite (q : Q)
| Infinite (negative : bool)
| NaN.

End Py.

Import Py.

(** ** The store

    [database.sql] creates three tables; the columns below are the ones the
    queries of [main.py] name. *)

Module Store.

Record user : Set := User {
  user_id : Z;
  telegram_id : Z;
  api_key : string;
  polling_frequency : Z;
  notification_threshold : Q
}.

Record warehouse : Set := Warehouse {
  warehouse_id : Z;
  name : string;
  last_updated : Z
}.

(** A row of [user_warehouses], in the column order of the INSERT:
    (warehouse_id, user_id). *)
Definition subscription : Set := (Z * Z)%type.

Record db : Set := Db {
  users : list user;
  warehouses : list warehouse;
  user_warehouses : list subscription
}.

(** [SELECT user_id FROM users WHERE telegram_id = $1] as a scalar: the
    column is the target of an ON CONFLICT clause, hence unique. *)
Definition user_id_of (d : db) (tid : Z) : option Z :=
  option_map user_id (find (fun u => telegram_id u =? tid) (users d)).

(** [SELECT telegram_id FROM users WHERE user_id = $1] through fetchval. *)
Definition telegram_id_of (d : db) (uid : Z) : option Z :=
  option_map telegram_id (find (fun u => user_id u =? uid) (users d)).

(** [SELECT warehouse_id FROM user_warehouses WHERE user_id = $1]. *)
Definition warehouses_of_user (d : db) (uid : Z) : list Z :=
  map fst (filter (fun r => snd r =? uid) (user_warehouses d)).

(** The same SELECT keyed by the subquery on telegram_id: a NULL subquery
    matches no row. *)
Definition warehouses_of_telegram (d : db) (tid : Z) : list Z :=
  match user_id_of d tid with
  | Some uid => warehouses_of_user d uid
  | None => []
  end.

(** [DELETE FROM user_warehouses WHERE user_id = (...) AND warehouse_id = $2]. *)
Definition delete_subscription (d : db) (tid wid : Z) : db :=
  match user_id_of d tid with
  | Some uid =>
      Db (users d) (warehouses d)
         (filter (fun r => negb ((snd r =? uid) && (fst r =? wid)))
                 (user_warehouses d))
  | None => d
  end.

Definition subscribed (rows : list subscription) (wid uid : Z) : bool :=
  existsb (fun r => (fst r =? wid) && (snd r =? uid)) rows.

(** Modelled from the spec: the constraints of [user_warehouses] are
    declared in [database.sql], which is not among the sources; the spec
    gives the table a unique (user, resource) pair and lists "duplicate
    subscription" and "unknown user" among the store constraint violations,
    so the INSERT refuses a pair that is present and the NULL user_id of a
    subquery that finds no user. *)
Definition insert_subscription (d : db) (wid tid : Z) : result db :=
  match user_id_of d tid with
  | Some uid =>
      if subscribed (user_warehouses d) wid uid
      then Raise UniqueViolationError
      else Ok (Db (users d) (warehouses d) (user_warehouses d ++ [(wid, uid)]))
  | None => Raise NotNullViolationError
  end.

(** [INSERT INTO warehouses ... ON CONFLICT (warehouse_id) DO UPDATE SET
    name, last_updated]. The list keeps a rewritten row where the old one
    was; the place the server gives it in a SELECT without ORDER BY is not
    fixed by the statement. *)
Fixpoint upsert_warehouse (ws : list warehouse) (wid : Z) (nm : string)
    (now : Z) : list warehouse :=
  match ws with
  | [] => [Warehouse wid nm now]
  | w :: r =>
      if warehouse_id w =? wid then Warehouse wid nm now :: r
      else w :: upsert_warehouse r wid nm now
  end.

(** [UPDATE users SET polling_frequency = $1 WHERE telegram_id = $2]. No
    constraint on the column shows in the sources: the handler that runs
    this statement, unlike the one for the threshold, expects no violation,
    and the schema of the specification lists none. The statement is
    modelled for the integers the column can hold: the driver refuses an
    integer outside the range of the column's type before it sends the
    statement. As for the catalog, a rewritten row keeps its place in the
    list. *)
Definition set_polling_frequency (d : db) (f tid : Z) : db :=
  Db (map (fun u =>
             if telegram_id u =? tid
             then User (user_id u) (telegram_id u) (api_key u) f
                       (notification_threshold u)
             else u) (users d))
     (warehouses d) (user_warehouses d).

(** Modelled from the spec: the CHECK constraint on
    [users.notification_threshold] is declared in [database.sql], which is
    not among the sources; the handler catches its violation and the spec
    gives the domain [0, 20]. An infinity or a NaN lies outside it. *)
Definition threshold_in_bounds (f : pyfloat) : option Q :=
  match f with
  | Finite q => if Qle_bool 0 q && Qle_bool q 20 then Some q else None
  | Infinite _ => None
  | NaN => None
  end.

(** [UPDATE users SET notification_threshold = $1 WHERE telegram_id = $2]:
    the constraint is evaluated on the rows the update touches. *)
Definition set_notification_threshold (d : db) (f : pyfloat) (tid : Z)
    : result db :=
  if existsb (fun u => telegram_id u =? tid) (users d) then
    match threshold_in_bounds f with
    | Some q =>
        Ok (Db (map (fun u =>
                       if telegram_id u =? tid
                       then User (user_id u) (telegram_id u) (api_key u)
                                 (polling_frequency u) q
                       else u) (users d))
               (warehouses d) (user_warehouses d))
    | None => Raise CheckViolationError
    end
  else Ok d.

End Store.

Import Store.

(** ** Effects

    A function that talks to the outside world returns the events it
    performed, in order, and either a value or the exception that ended it. *)

(** One entry of the coefficients endpoint's JSON array, with the keys the
    program reads. *)
Record coefficient_dict : Set := Coefficient {
  coefficient : number;
  warehouseName : string;
  boxTypeName : string;
  date : string
}.

(** The text of a notification, kept as its data: the count of its first
    line and the fields of the lines that follow. *)
Record notification : Set := Notification {
  found : nat;
  lines : list (string * number * string * string)
}.

(** An inline keyboard: rows of buttons. *)
Record InlineKeyboardButton : Set := Button {
  text : string;
  callback_data : string
}.

Definition keyboard : Set := list (list InlineKeyboardButton).

Inductive event : Set :=
| SelectUserWarehouses (uid : Z)
| GetCoefficients (key : string) (warehouse_ids : list Z)
| SendMessage (chat_id : option Z) (message : notification)
| Sleep (seconds : Z)
| CallbackAnswer (s : string)
| MessageAnswer (s : string) (reply_markup : option keyboard)
| EditReplyMarkup (reply_markup : keyboard).

Record run (A : Type) : Type := Run {
  trace : list event;
  outcome : result A
}.
Arguments Run {A} trace outcome.
Arguments trace {A} r.
Arguments outcome {A} r.

Definition ret {A} (a : A) : run A := Run [] (Ok a).

Definition raise {A} (e : exn) : run A := Run [] (Raise e).

Definition emit (e : event) : run unit := Run [e] (Ok tt).

Definition lift {A} (r : result A) : run A := Run [] r.

Definition bind {A B} (m : run A) (f : A -> run B) : run B :=
  match outcome m with
  | Ok a => Run (trace m ++ trace (f a)) (outcome (f a))
  | Raise e => Run (trace m) (Raise e)
  end.

(** [try: m except (caught...): handler]. *)
Definition try_except {A} (m : run A) (caught : exn -> bool) (handler : run A)
    : run A :=
  match outcome m with
  | Ok a => m
  | Raise e =>
      if caught e then Run (trace m ++ trace handler) (outcome handler)
      else m
  end.

Notation "x <- m ;; k" := (bind m (fun x => k))
  (at level 61, m at next level, right associativity).
Notation "m ;; k" := (bind m (fun _ => k))
  (at level 61, right associativity).

(** ** The per-user check *)

(** The answer of the coefficients endpoint: a status with the parsed body,
    or no answer at all. *)
Inductive response : Set :=
| Response (status : Z) (json : list coefficient_dict)
| ConnectionFailed.

(** What [get_coefficients] returns: the parsed array, or the dict
    [{"error": status}]. *)
Inductive data : Set :=
| DataList (l : list coefficient_dict)
| DataError (status : Z).

(** What a [for] loop over [data] yields: the entries of the array, or the
    keys of the dict. *)
Inductive item : Set :=
| ItemDict (c : coefficient_dict)
| ItemStr (s : string).

Definition iter (d : data) : list item :=
  match d with
  | DataList l => map ItemDict l
  | DataError _ => [ItemStr "error"]
  end.

(** [x['coefficient']]: a str cannot be indexed by a str. *)
Definition getitem_coefficient (x : item) : result coefficient_dict :=
  match x with
  | ItemDict c => Ok c
  | ItemStr _ => Raise TypeError
  end.

(** The condition of line 515, [-1 < int(c['coefficient']) <= threshold]. *)
Definition qualifies (v : number) (threshold : Q) : bool :=
  (-1 <? int_of_number v)
  && Qle_bool (inject_Z (int_of_number v)) threshold.

(** The loop of lines 513-516, appending to [good_coefficients]. *)
Fixpoint collect (items : list item) (threshold : Q)
    (good_coefficients : list coefficient_dict)
    : result (list coefficient_dict) :=
  match items with
  | [] => Ok good_coefficients
  | x :: rest =>
      match getitem_coefficient x with
      | Ok c =>
          if qualifies (coefficient c) threshold
          then collect rest threshold (good_coefficients ++ [c])
          else collect rest threshold good_coefficients
      | Raise e => Raise e
      end
  end.

Definition line (c : coefficient_dict) : string * number * string * string :=
  (warehouseName c, coefficient c, boxTypeName c, date c).

Definition notify_user (d : db) (uid : Z) (coefficients : list coefficient_dict)
    : run unit :=
  emit (SendMessage (telegram_id_of d uid)
          (Notification (List.length coefficients) (map line coefficients))).

Section Polling.

(** The coefficients endpoint, as it answers a key and a list of ids. *)
Variable upstream : string -> list Z -> response.

Definition get_coefficients (key : string) (ids : list Z) : run data :=
  emit (GetCoefficients key ids) ;;
  match upstream key ids with
  | Response status json =>
      ret (if status =? 200 then DataList json else DataError status)
  | ConnectionFailed => raise ClientError
  end.

(** What a check reads, requests and sends. The connection pool that each
    call opens for its SELECT and does not close is left out, and
    [bot.send_message] is taken to return. *)
Definition check_coefficients_for_user (d : db) (uid : Z) (key : string)
    (threshold : Q) : run unit :=
  emit (SelectUserWarehouses uid) ;;
  match warehouses_of_user d uid with
  | [] => ret tt
  | warehouse_ids =>
      coefficients <- get_coefficients key warehouse_ids ;;
      good_coefficients <- lift (collect (iter coefficients) threshold []) ;;
      notify_user d uid good_coefficients
  end.

(** ** The scheduler *)

(** The guard of line 488. *)
Definition due (loop_num : Z) (u : user) : result bool :=
  match mod_ loop_num (polling_frequency u) with
  | Ok r => Ok (r =? 0)
  | Raise e => Raise e
  end.

(** The [for user in users] loop of one tick. *)
Fixpoint poll_users (d : db) (loop_num : Z) (us : list user) : run unit :=
  match us with
  | [] => ret tt
  | u :: rest =>
      is_due <- lift (due loop_num u) ;;
      (if is_due : bool
       then check_coefficients_for_user d (user_id u) (api_key u)
              (notification_threshold u)
       else ret tt) ;;
      poll_users d loop_num rest
  end.

(** The [while True] loop, unrolled [fuel] times; [store] gives the content
    of the tables at each tick, since the handlers write to them between
    ticks. The value is the counter reached: a loop that is still running
    after [fuel] ticks ends in [Ok]. *)
Fixpoint polling_loop (fuel : nat) (store : Z -> db) (loop_num : Z) : run Z :=
  match fuel with
  | O => ret loop_num
  | S k =>
      poll_users (store loop_num) loop_num (users (store loop_num)) ;;
      emit (Sleep 60) ;;
      polling_loop k store (loop_num + 1)
  end.

Definition start_polling (fuel : nat) (store : Z -> db) : run Z :=
  polling_loop fuel store 0.

End Polling.

(** ** The catalog refresh *)

(** One entry of the directory endpoint's JSON array. *)
Record warehouse_dict : Set := WarehouseDict {
  ID : Z;
  dict_name : string
}.

(** The exclusion marker of line 96. *)
Definition marker : string := "СЦ".

(** The loop of [update_warehouses_in_db] on the catalog; [now] is the
    reading of NOW(). *)
Fixpoint update_warehouses_in_db (now : Z) (data : list warehouse_dict)
    (ws : list warehouse) : list warehouse :=
  match data with
  | [] => ws
  | w :: rest =>
      if negb (contains marker (dict_name w))
      then update_warehouses_in_db now rest
             (upsert_warehouse ws (ID w) (dict_name w) now)
      else update_warehouses_in_db now rest ws
  end.

(** The catalog after a sequence of refreshes of the empty table, each with
    its clock reading. *)
Definition refreshes (runs : list (Z * list warehouse_dict)) : list warehouse :=
  fold_left (fun ws r => update_warehouses_in_db (fst r) (snd r) ws) runs [].

(** ** The selection keyboard *)

Definition WAREHOUSES_PER_PAGE : Z := 6.

(** [builder.row] called with at most eight buttons: one more row, and
    nothing for no button. *)
Definition row (k : keyboard) (buttons : list InlineKeyboardButton) : keyboard :=
  match buttons with
  | [] => k
  | _ => k ++ [buttons]
  end.

Definition select_button (selected_ids : list Z) (page : Z) (w : warehouse)
    : InlineKeyboardButton :=
  let is_selected := mem (warehouse_id w) selected_ids in
  Button (if is_selected then "✅ " ++ name w else name w)
         ("select_" ++ str_of_int (warehouse_id w) ++ "_page_" ++ str_of_int page).

(** The loop of lines 210-222: [buttons] collects the pending buttons,
    [index] is the counter of [enumerate]. What the loop leaves in [buttons]
    is not used afterwards. *)
Fixpoint selection_rows (selected_ids : list Z) (page : Z) (index : Z)
    (ws : list warehouse) (buttons : list InlineKeyboardButton)
    (builder : keyboard) : keyboard :=
  match ws with
  | [] => builder
  | w :: rest =>
      let buttons := buttons ++ [select_button selected_ids page w] in
      if index mod 2 =? 1
      then selection_rows selected_ids page (index + 1) rest [] (row builder buttons)
      else selection_rows selected_ids page (index + 1) rest buttons builder
  end.

Definition navigation_row (page end_index len : Z) : list InlineKeyboardButton :=
  (if 0 <? page then [Button "<<" ("page_" ++ str_of_int (page - 1))] else [])
  ++ [Button "Сохранить" "done"]
  ++ (if end_index <? len then [Button ">>" ("page_" ++ str_of_int (page + 1))]
      else []).

Definition paginated_warehouses (ws : list warehouse) (page : Z) : list warehouse :=
  slice ws (page * WAREHOUSES_PER_PAGE)
           (page * WAREHOUSES_PER_PAGE + WAREHOUSES_PER_PAGE).

Definition generate_warehouse_keyboard (d : db) (selected_warehouses : list Z)
    (page : Z) : keyboard :=
  let ws := warehouses d in
  let start_index := page * WAREHOUSES_PER_PAGE in
  let end_index := start_index + WAREHOUSES_PER_PAGE in
  let builder :=
    selection_rows selected_warehouses page 0 (paginated_warehouses ws page) [] [] in
  row builder (navigation_row page end_index (Z.of_nat (List.length ws))).

(** ** The conversation handlers *)

(** The states of [RegistrationStates]; a conversation without a state
    ([None] below) is idle. *)
Inductive State : Set :=
| entering_api_key
| choosing_warehouses
| editing_warehouses
| editing_notification_threshold
| editing_polling_frequency
| editing_api_key.

(** What a handler with an [FSMContext] works on: the tables and the state
    of the sender's conversation. *)
Record context : Set := Context {
  store : db;
  state : option State
}.

(** [int(data.split('_')[i])]. *)
Definition int_field (data : string) (i : Z) : result Z :=
  match index (split "_" data) i with
  | Ok s => int_of_str s
  | Raise e => Raise e
  end.

Definition show_main_menu : run unit :=
  emit (MessageAnswer "🏠 Главное меню:"
          (Some [[Button "⚙️ Настройки:" "settings"]])).

(** The filter of the toggle handler, line 251. *)
Definition is_select (data : string) : bool := startswith data "select_".

Definition warehouse_selected (d : db) (data : string) (tid : Z) : run db :=
  warehouse_id <- lift (int_field data 1) ;;
  page <- lift (int_field data 3) ;;
  let selected_ids := warehouses_of_telegram d tid in
  if mem warehouse_id selected_ids then
    let selected_ids := remove warehouse_id selected_ids in
    emit (CallbackAnswer
            ("❌ Склад " ++ str_of_int warehouse_id ++ " удалён из вашего списка.")) ;;
    let d := delete_subscription d tid warehouse_id in
    emit (EditReplyMarkup (generate_warehouse_keyboard d selected_ids page)) ;;
    ret d
  else
    let selected_ids := selected_ids ++ [warehouse_id] in
    emit (CallbackAnswer
            ("✅ Склад " ++ str_of_int warehouse_id ++ " добавлен в ваш список.")) ;;
    d <- lift (insert_subscription d warehouse_id tid) ;;
    emit (EditReplyMarkup (generate_warehouse_keyboard d selected_ids page)) ;;
    ret d.

Definition finish_warehouse_selection (c : context) : run context :=
  emit (MessageAnswer
          "🎉 Настройка завершена! Теперь мы будем отслеживать коэффициенты на выбранных вами складах."
          None) ;;
  let c := Context (store c) None in
  show_main_menu ;;
  ret c.

(** The keyboard of [edit_polling_frequency]: four buttons added one by one
    share a row. *)
Definition polling_frequency_keyboard : keyboard :=
  [[Button "5 минут" "set_polling_5";
    Button "15 минут" "set_polling_15";
    Button "30 минут" "set_polling_30";
    Button "60 минут" "set_polling_60"]].

Definition edit_polling_frequency : run unit :=
  emit (MessageAnswer "🔄 Выберите новую частоту опроса:"
          (Some polling_frequency_keyboard)).

(** The filter of the frequency handler, line 405. *)
Definition is_set_polling (data : string) : bool :=
  startswith data "set_polling_".

Definition process_new_polling_frequency (d : db) (data : string) (tid : Z)
    : run db :=
  new_frequency <- lift (int_field data (-1)) ;;
  let d := set_polling_frequency d new_frequency tid in
  emit (MessageAnswer "🔄 Частота опроса обновлена!" None) ;;
  show_main_menu ;;
  ret d.

Definition edit_notification_threshold (c : context) : run context :=
  emit (MessageAnswer "📊 Введите новый порог коэффициента:" None) ;;
  ret (Context (store c) (Some editing_notification_threshold)).

Section Threshold.

(** [float(s)] on a str, [None] for its ValueError: the grammar of float
    literals and the rounding to a double stay outside the model. *)
Variable float_of_str : string -> option pyfloat.

(** [float(message.text)]: a message without text has [text = None]. *)
Definition float_ (text : option string) : result pyfloat :=
  match text with
  | None => Raise TypeError
  | Some s =>
      match float_of_str s with
      | Some f => Ok f
      | None => Raise ValueError
      end
  end.

Definition caught (e : exn) : bool :=
  match e with
  | ValueError | CheckViolationError => true
  | _ => false
  end.

Definition process_new_notification_threshold (c : context)
    (text : option string) (tid : Z) : run context :=
  try_except
    (new_threshold <- lift (float_ text) ;;
     d <- lift (set_notification_threshold (store c) new_threshold tid) ;;
     emit (MessageAnswer "📊 Порог коэффициента обновлён!" None) ;;
     show_main_menu ;;
     ret (Context d (state c)))
    caught
    (emit (MessageAnswer "⚠️ Пожалуйста, введите число от 0 до 20." None) ;;
     ret c).

End Threshold.

(** ** Page navigation and the callback filters *)

(** The filters of the callback handlers, in the order of their
    registration. *)
Definition is_page (data : string) : bool := startswith data "page_".

Definition is_done (data : string) : bool := String.eqb data "done".

Definition is_settings (data : string) : bool := String.eqb data "settings".

Definition is_edit_warehouses (data : string) : bool :=
  String.eqb data "edit_warehouses".

Definition is_edit_polling_frequency (data : string) : bool :=
  String.eqb data "edit_polling_frequency".

Definition is_edit_threshold (data : string) : bool :=
  String.eqb data "edit_threshold".

Definition is_edit_api_key (data : string) : bool :=
  String.eqb data "edit_api_key".

Definition callback_filters : list (string -> bool) :=
  [is_select; is_page; is_done; is_settings; is_edit_warehouses;
   is_edit_polling_frequency; is_set_polling; is_edit_threshold;
   is_edit_api_key].

Definition change_page_callback (d : db) (data : string) (tid : Z) : run unit :=
  page <- lift (int_field data 1) ;;
  let selected_ids := warehouses_of_telegram d tid in
  emit (EditReplyMarkup (generate_warehouse_keyboard d selected_ids page)).

(** ** Registration and the API key

    These handlers write to the store, call the upstream and move the
    conversation; an exception leaves what was written before it. A handler
    is a function of the context that returns the context it leaves, what it
    did and its value or exception. *)

Inductive action : Set :=
| Ping (key : string)
| GetWarehouses (key : string)
| Reply (e : event).

Record reaction (A : Type) : Type := Reaction {
  after : context;
  log : list action;
  returned : result A
}.
Arguments Reaction {A} after log returned.
Arguments after {A} r.
Arguments log {A} r.
Arguments returned {A} r.

Definition handler (A : Type) : Type := context -> reaction A.

Definition h_ret {A} (a : A) : handler A := fun c => Reaction c [] (Ok a).

Definition h_raise {A} (e : exn) : handler A := fun c => Reaction c [] (Raise e).

Definition h_bind {A B} (m : handler A) (f : A -> handler B) : handler B :=
  fun c =>
    let r := m c in
    match returned r with
    | Ok a =>
        let r' := f a (after r) in
        Reaction (after r') (log r ++ log r') (returned r')
    | Raise e => Reaction (after r) (log r) (Raise e)
    end.

Definition act (a : action) : handler unit := fun c => Reaction c [a] (Ok tt).

Definition say (e : event) : handler unit := act (Reply e).

Definition get_store : handler db := fun c => Reaction c [] (Ok (store c)).

Definition put_store (d : db) : handler unit :=
  fun c => Reaction (Context d (state c)) [] (Ok tt).

Definition set_state (s : State) : handler unit :=
  fun c => Reaction (Context (store c) (Some s)) [] (Ok tt).


Declare Scope handler_scope.
Delimit Scope handler_scope with handler.
Notation "x <- m ;; k" := (h_bind m (fun x => k))
  (at level 61, m at next level, right associativity) : handler_scope.
Notation "m ;; k" := (h_bind m (fun _ => k))
  (at level 61, right associativity) : handler_scope.

Definition ERROR_MESSAGES : list (Z * string) :=
  [(400, "Ошибка: Неверный запрос. Проверьте правильность параметров.");
   (401, "Ошибка: Пользователь не авторизован. Проверьте ваш API ключ.");
   (403, "Ошибка: Доступ запрещён. У вас нет прав на выполнение этого действия.");
   (404, "Ошибка: Адрес не найден. Проверьте правильность параметров.");
   (429, "Ошибка: Слишком много запросов. Попробуйте позже.");
   (500, "Ошибка: Внутренняя ошибка сервера. Повторите запрос позднее.")]%string.

(** [d.get(k, default)]. *)
Fixpoint dict_get (d : list (Z * string)) (k : Z) (default : string) : string :=
  match d with
  | [] => default
  | (k', v) :: rest => if k' =? k then v else dict_get rest k default
  end.

(** The answer of the directory endpoint. *)
Inductive directory_response : Set :=
| Directory (status : Z) (json : list warehouse_dict)
| DirectoryUnreachable.

(** [UPDATE users SET api_key = $1 WHERE telegram_id = $2]. *)
Definition set_api_key (d : db) (key : string) (tid : Z) : db :=
  Db (map (fun u =>
             if telegram_id u =? tid
             then User (user_id u) (telegram_id u) key (polling_frequency u)
                       (notification_threshold u)
             else u) (users d))
     (warehouses d) (user_warehouses d).

Section Onboarding.

(** The ping endpoint: the status it answers a key with, or no answer. *)
Variable ping : string -> option Z.

(** The directory endpoint and the reading of NOW() during a refresh. *)
Variable directory : string -> directory_response.
Variable now : Z.

(** What [database.sql] gives a new row of [users]: the next value of the
    id sequence and the defaults of the two settings columns. *)
Variable next_user_id : db -> Z.
Variable default_polling_frequency : Z.
Variable default_notification_threshold : Q.

Definition validate_api_key (key : string) : handler bool :=
  (act (Ping key) ;;
   match ping key with
   | Some status => h_ret (status =? 200)
   | None => h_raise ClientError
   end)%handler.

Definition update_warehouses (key : string) : handler (Z * string) :=
  (act (GetWarehouses key) ;;
   match directory key with
   | Directory status json =>
       (if status =? 200
        then d <- get_store ;;
             put_store (Db (users d)
                           (update_warehouses_in_db now json (warehouses d))
                           (user_warehouses d))
        else h_ret tt) ;;
       h_ret (status, dict_get ERROR_MESSAGES status "OK")
   | DirectoryUnreachable => h_raise ClientError
   end)%handler.

(** [INSERT INTO users (telegram_id, api_key) ... ON CONFLICT (telegram_id)
    DO UPDATE SET api_key = $2]. *)
Definition insert_user (d : db) (tid : Z) (key : string) : db :=
  if existsb (fun u => telegram_id u =? tid) (users d)
  then set_api_key d key tid
  else Db (users d
           ++ [User (next_user_id d) tid key default_polling_frequency
                    default_notification_threshold])
          (warehouses d) (user_warehouses d).

Definition show_warehouse_selection (selected_warehouses : list Z)
    : handler unit :=
  (d <- get_store ;;
   say (MessageAnswer "📦 Выберите склады для отслеживания:"
          (Some (generate_warehouse_keyboard d selected_warehouses 0))))%handler.


(** [process_api_key] on a message that carries text. *)
Definition process_api_key (text : string) (tid : Z) : handler unit :=
  (say (MessageAnswer "Проверка ключа, ожидайте" None) ;;
   valid <- validate_api_key text ;;
   if valid : bool then
     d <- get_store ;;
     put_store (insert_user d tid text) ;;
     say (MessageAnswer
            "✅ API ключ сохранён! Теперь выберите склады для отслеживания."
            None) ;;
     update_warehouses text ;;
     show_warehouse_selection [] ;;
     set_state choosing_warehouses
   else
     say (MessageAnswer
            "❌ API ключ недействителен. Пожалуйста, проверьте его и введите заново."
            None))%handler.

Definition edit_warehouses (tid : Z) : handler unit :=
  (d <- get_store ;;
   show_warehouse_selection (warehouses_of_telegram d tid) ;;
   set_state editing_warehouses)%handler.

Definition edit_api_key : handler unit :=
  (say (MessageAnswer "🔑 Введите новый API ключ для работы с Wildberries:"
          None) ;;
   set_state editing_api_key)%handler.


End Onboarding.

(** ** Notions used in the statements *)

(** The frequencies the settings keyboard offers, and the tokens of its
    buttons. *)
Definition offered_frequencies : list Z := [5; 15; 30; 60].

Definition offered_tokens : list string :=
  map callback_data (List.concat polling_frequency_keyboard).

(** The rows that hold a list of buttons two by two; a last button without
    a partner has no row. *)
Fixpoint pair_rows (bs : list InlineKeyboardButton) : keyboard :=
  match bs with
  | a :: b :: rest => [a; b] :: pair_rows rest
  | _ => []
  end.

(** A character that is neither whitespace nor the separator of the
    callback tokens. *)
Definition plain (c : ascii) : bool :=
  negb (is_space c) && negb (Ascii.eqb c "_").

(** The name the directory gave last to the id [i], among its entries
    without the marker. *)
Fixpoint last_name (data : list warehouse_dict) (i : Z) : option string :=
  match data with
  | [] => None
  | e :: rest =>
      match last_name rest i with
      | Some n => Some n
      | None =>
          if negb (contains marker (dict_name e)) && (ID e =? i)
          then Some (dict_name e)
          else None
      end
  end.

(** ** Observations on traces *)

Definition is_check_of (uid : Z) (e : event) : bool :=
  match e with
  | SelectUserWarehouses u => u =? uid
  | _ => false
  end.

(** How many times the check of user [uid] was entered during a run: each
    entry reads the user's subscriptions first. *)
Definition checks_started (uid : Z) (t : list event) : nat :=
  List.length (filter (is_check_of uid) t).

(** ** Scenario data *)

(** An entry of the coefficients array with the given value. *)
Definition entry (v : number) : coefficient_dict :=
  Coefficient v "Коледино" "Короба" "2024-10-01".

Definition alice : user := User 1 1001 "key-a" 5 5.

Definition bob : user := User 2 1002 "key-b" 15 10.

Definition catalog7 : list warehouse :=
  map (fun i => Warehouse i ("Склад " ++ str_of_int i) 0) [1; 2; 3; 4; 5; 6; 7].

(** Two registered users, each subscribed to one warehouse. *)
Definition db2 : db := Db [alice; bob] catalog7 [(3, 1); (4, 2)].

(** Alice is registered and has no subscription. *)
Definition db1 : db := Db [alice] catalog7 [].

(** Alice at Bob's frequency; the two users before and after each chose a
    warehouse. *)
Definition alice15 : user := User 1 1001 "key-a" 15 5.

Definition db_new : db := Db [alice15; bob] catalog7 [].

Definition db_chosen : db := Db [alice15; bob] catalog7 [(3, 1); (4, 2)].

(** The tables as the ticks find them when both users choose their
    warehouses between tick 14 and tick 15. *)
Definition store_chosen_at_15 (t : Z) : db :=
  if t <? 15 then db_new else db_chosen.

(** An upstream that refuses Alice's key and serves everyone else. *)
Definition upstream_401 (key : string) (ids : list Z) : response :=
  if String.eqb key "key-a" then Response 401 []
  else Response 200 (map entry [PyInt (-1); PyInt 0; PyInt 5; PyInt 6]).

(** An upstream on which nothing is available. *)
Definition upstream_closed (key : string) (ids : list Z) : response :=
  Response 200 (map entry [PyInt (-1); PyInt (-1)]).

(** An upstream that cannot be reached. *)
Definition upstream_down (key : string) (ids : list Z) : response :=
  ConnectionFailed.

(** A ping endpoint that accepts every key, and one that refuses every
    key. *)
Definition ping_ok (key : string) : option Z := Some 200.

Definition ping_401 (key : string) : option Z := Some 401.

(** A directory with a marked and an unmarked entry, and one that cannot be
    reached. *)
Definition directory_two (key : string) : directory_response :=
  Directory 200 [WarehouseDict 8 "СЦ Казань"; WarehouseDict 9 "Клин"].

Definition directory_down (key : string) : directory_response :=
  DirectoryUnreachable.

(** An id sequence for the scenarios. *)
Definition next_id (d : db) : Z := 1 + Z.of_nat (List.length (users d)).

(** A [float] that reads the numerals of the scenarios. *)
Definition float_of_numeral (s : string) : option pyfloat :=
  match int_of_str s with
  | Ok z => Some (Finite (inject_Z z))
  | Raise _ => None
  end.

(** * Properties *)

(** ** The primitives on the inputs of the program *)

Example int_of_str_cases :
  map int_of_str
      [" 12 "; "-0"; "007"; "1_000"; "_1"; "1_"; ""; "+ 1"; "abc"]%string
  = [Ok 12; Ok 0; Ok 7; Ok 1000; Raise ValueError; Raise ValueError;
     Raise ValueError; Raise ValueError; Raise ValueError].
Proof. reflexivity. Qed.

Example str_of_int_cases :
  map str_of_int [0; -5; 120] = ["0"; "-5"; "120"]%string.
Proof. reflexivity. Qed.

Example int_field_cases :
  (int_field "select_5_page_2" 1, int_field "select_5_page_2" 3,
   int_field "set_polling_15" (-1), int_field "select_5" 3,
   int_field "set_polling_" (-1))
  = (Ok 5, Ok 2, Ok 15, Raise IndexError, Raise ValueError).
Proof. reflexivity. Qed.

Example slice_cases :
  (slice [1; 2; 3; 4; 5; 6; 7] 6 12, slice [1; 2; 3] (-6) 0,
   slice [1; 2; 3] (-2) 4)
  = ([7], [], [2; 3]).
Proof. reflexivity. Qed.

Example int_of_number_cases :
  map int_of_number [PyInt 5; PyFloat (11 # 2); PyFloat (-1 # 2); PyFloat (-3 # 2)]
  = [5; 5; 0; -1].
Proof. reflexivity. Qed.

(** ** The threshold filter *)

Lemma trunc_above_minus_one (n : Z) (d : positive) :
  -1 < Z.quot n (Z.pos d) <-> - Z.pos d < n.
Proof.
  destruct (Z.neg_nonneg_cases n) as [Hn | Hn].
  - assert (E : Z.quot n (Z.pos d) = - ((- n) / Z.pos d)).
    { rewrite <- Z.quot_div_nonneg by lia.
      rewrite Z.quot_opp_l by lia. lia. }
    rewrite E. split; intro H.
    + assert (L : (- n) / Z.pos d < 1) by lia.
      pose proof (Z.div_mod (- n) (Z.pos d) ltac:(lia)).
      pose proof (Z.mod_pos_bound (- n) (Z.pos d) ltac:(lia)).
      pose proof (Z.div_pos (- n) (Z.pos d) ltac:(lia) ltac:(lia)).
      nia.
    + rewrite Z.div_small; lia.
  - pose proof (Z.quot_pos n (Z.pos d) Hn ltac:(lia)). lia.
Qed.

Lemma int_of_number_above_minus_one (v : number) :
  -1 < int_of_number v <-> (inject_Z (-1) < value v)%Q.
Proof.
  destruct v as [z | [n d]]; unfold Qlt; simpl.
  - lia.
  - rewrite trunc_above_minus_one. lia.
Qed.

Lemma qualifies_true (v : number) (T : Q) :
  qualifies v T = true <->
  -1 < int_of_number v /\ (inject_Z (int_of_number v) <= T)%Q.
Proof.
  unfold qualifies.
  rewrite andb_true_iff, Z.ltb_lt, Qle_bool_iff. reflexivity.
Qed.

(** C1, as amended: a metric value [v] qualifies for threshold [T] exactly
    when [-1 < v] and [int(v) <= T], where [int] truncates towards zero as
    line 515 does. For an integer [v] this is [-1 < v <= T]: the sentinel
    [-1] is excluded, [0] qualifies for [T = 0], [v = T] qualifies and an
    integer above [T] does not; with threshold 5 the values -1, 0, 5, 6 leave
    0 and 5, in that order. *)
Theorem qualifies_iff_truncated_in_range (v : number) (T : Q) (z : Z) :
  (qualifies v T = true <->
     (inject_Z (-1) < value v)%Q /\ (inject_Z (int_of_number v) <= T)%Q)
  /\ (qualifies (PyInt z) T = true <->
        (inject_Z (-1) < value (PyInt z))%Q /\ (value (PyInt z) <= T)%Q)
  /\ qualifies (PyInt (-1)) T = false
  /\ qualifies (PyInt 0) 0 = true
  /\ qualifies (PyInt z) (inject_Z z) = (-1 <? z)
  /\ collect (iter (DataList (map entry [PyInt (-1); PyInt 0; PyInt 5; PyInt 6])))
       5 []
     = Ok (map entry [PyInt 0; PyInt 5]).
Proof.
  split; [| split; [| split; [| split; [| split]]]].
  - rewrite qualifies_true, int_of_number_above_minus_one. reflexivity.
  - rewrite qualifies_true, int_of_number_above_minus_one. reflexivity.
  - reflexivity.
  - reflexivity.
  - unfold qualifies. simpl.
    assert (E : Qle_bool (inject_Z z) (inject_Z z) = true)
      by (apply Qle_bool_iff, Qle_refl).
    rewrite E. apply andb_true_r.
  - reflexivity.
Qed.

(** C1, as stated, fails on a fractional value: 5.5 is above the threshold 5
    and qualifies, since its integer part is 5. *)
Lemma qualifies_fraction_above_threshold :
  ~ (qualifies (PyFloat (11 # 2)) 5 = true <->
     (inject_Z (-1) < value (PyFloat (11 # 2)))%Q
     /\ (value (PyFloat (11 # 2)) <= 5)%Q).
Proof.
  intros [H _].
  destruct (H eq_refl) as [_ L].
  revert L. unfold Qle. simpl. lia.
Qed.

(** ** The per-user check *)

Lemma collect_of_list (l : list coefficient_dict) (T : Q)
    (acc : list coefficient_dict) :
  collect (iter (DataList l)) T acc
  = Ok (acc ++ filter (fun c => qualifies (coefficient c) T) l).
Proof.
  revert acc. induction l as [| c l IH]; intro acc; simpl.
  - now rewrite app_nil_r.
  - destruct (qualifies (coefficient c) T).
    + simpl in IH. rewrite IH, <- app_assoc. reflexivity.
    + apply IH.
Qed.

Lemma collect_of_error (status : Z) (T : Q) (acc : list coefficient_dict) :
  collect (iter (DataError status)) T acc = Raise TypeError.
Proof. reflexivity. Qed.

(** The equations of the effect monad. *)

Lemma bind_ret {A B} (a : A) (f : A -> run B) : bind (ret a) f = f a.
Proof. unfold bind. simpl. now destruct (f a). Qed.

Lemma bind_lift_ok {A B} (a : A) (f : A -> run B) : bind (lift (Ok a)) f = f a.
Proof. apply bind_ret. Qed.

Lemma bind_lift_raise {A B} (e : exn) (f : A -> run B) :
  bind (lift (Raise e)) f = raise e.
Proof. reflexivity. Qed.

Lemma bind_raise {A B} (e : exn) (f : A -> run B) : bind (raise e) f = raise e.
Proof. reflexivity. Qed.

Lemma bind_emit {B} (e : event) (f : unit -> run B) :
  bind (emit e) f = Run (e :: trace (f tt)) (outcome (f tt)).
Proof. reflexivity. Qed.

Lemma bind_assoc {A B C} (m : run A) (f : A -> run B) (g : B -> run C) :
  bind (bind m f) g = bind m (fun a => bind (f a) g).
Proof.
  unfold bind. destruct m as [t [a | e]]; simpl; [| reflexivity].
  destruct (f a) as [t' [b | e']]; simpl; [| reflexivity].
  now rewrite app_assoc.
Qed.

Section CheckProperties.

Variable upstream : string -> list Z -> response.

(** C3, as amended: a check that completes (the user has subscriptions and
    the endpoint answers 200) collects the qualifying entries in upstream
    order and hands them to [notify_user] in every case, also when none
    qualifies: one message is sent, whose count is the length of the
    sequence. *)
Theorem check_notifies_with_qualifying_in_order (d : db) (uid : Z)
    (key : string) (T : Q) (json : list coefficient_dict)
    (Hsub : warehouses_of_user d uid <> [])
    (Hok : upstream key (warehouses_of_user d uid) = Response 200 json) :
  let good := filter (fun c => qualifies (coefficient c) T) json in
  check_coefficients_for_user upstream d uid key T
  = Run [SelectUserWarehouses uid;
         GetCoefficients key (warehouses_of_user d uid);
         SendMessage (telegram_id_of d uid)
           (Notification (List.length good) (map line good))]
        (Ok tt).
Proof.
  intro good. unfold check_coefficients_for_user.
  destruct (warehouses_of_user d uid) as [| w ws] eqn:E; [congruence |].
  unfold get_coefficients. rewrite Hok. simpl (200 =? 200).
  rewrite bind_assoc, !bind_emit, bind_ret, collect_of_list, bind_lift_ok.
  reflexivity.
Qed.

(** C9: for a user without subscriptions the check reads the user's rows
    and returns: no fetch, no message, nothing written. *)
Theorem check_without_subscriptions_is_noop (d : db) (uid : Z) (key : string)
    (T : Q) (Hempty : warehouses_of_user d uid = []) :
  check_coefficients_for_user upstream d uid key T
  = Run [SelectUserWarehouses uid] (Ok tt).
Proof.
  unfold check_coefficients_for_user. rewrite Hempty. reflexivity.
Qed.

(** A status other than 200 ends the check with the TypeError of indexing
    the key of the error dict. *)
Lemma check_raises_on_error_status (d : db) (uid : Z) (key : string) (T : Q)
    (status : Z) (json : list coefficient_dict)
    (Hsub : warehouses_of_user d uid <> [])
    (Hstatus : status <> 200)
    (Hresp : upstream key (warehouses_of_user d uid) = Response status json) :
  check_coefficients_for_user upstream d uid key T
  = Run [SelectUserWarehouses uid;
         GetCoefficients key (warehouses_of_user d uid)]
        (Raise TypeError).
Proof.
  unfold check_coefficients_for_user.
  destruct (warehouses_of_user d uid) as [| w ws] eqn:E; [congruence |].
  unfold get_coefficients. rewrite Hresp.
  apply Z.eqb_neq in Hstatus. rewrite Hstatus.
  rewrite bind_assoc, !bind_emit, bind_ret, collect_of_error, bind_lift_raise.
  reflexivity.
Qed.

End CheckProperties.

Lemma check_notifies_with_qualifying_in_order_witness :
  warehouses_of_user db2 2 <> []
  /\ upstream_401 "key-b" (warehouses_of_user db2 2)
     = Response 200 (map entry [PyInt (-1); PyInt 0; PyInt 5; PyInt 6])
  /\ check_coefficients_for_user upstream_401 db2 2 "key-b" 5
     = Run [SelectUserWarehouses 2;
            GetCoefficients "key-b" [4];
            SendMessage (Some 1002)
              (Notification 2 (map line (map entry [PyInt 0; PyInt 5])))]
           (Ok tt).
Proof.
  split; [discriminate |]. split; [reflexivity |].
  exact (check_notifies_with_qualifying_in_order upstream_401 db2 2 "key-b" 5
           (map entry [PyInt (-1); PyInt 0; PyInt 5; PyInt 6])
           ltac:(discriminate) eq_refl).
Defined.

(** C3, as stated, fails when nothing qualifies: the check still sends a
    message, which reports zero entries. *)
Lemma empty_result_is_notified :
  filter (fun c => qualifies (coefficient c) 5)
         (map entry [PyInt (-1); PyInt (-1)]) = []
  /\ check_coefficients_for_user upstream_closed db2 1 "key-a" 5
     = Run [SelectUserWarehouses 1;
            GetCoefficients "key-a" [3];
            SendMessage (Some 1001) (Notification 0 [])]
           (Ok tt).
Proof. split; reflexivity. Qed.

Lemma check_without_subscriptions_is_noop_witness :
  warehouses_of_user db1 1 = []
  /\ check_coefficients_for_user upstream_401 db1 1 "key-a" 5
     = Run [SelectUserWarehouses 1] (Ok tt).
Proof.
  split; [reflexivity |].
  exact (check_without_subscriptions_is_noop upstream_401 db1 1 "key-a" 5 eq_refl).
Defined.

(** ** The scheduler *)

Lemma checks_started_app (uid : Z) (a b : list event) :
  checks_started uid (a ++ b)
  = (checks_started uid a + checks_started uid b)%nat.
Proof. unfold checks_started. now rewrite filter_app, length_app. Qed.

Lemma trace_bind {A B} (m : run A) (f : A -> run B) :
  trace (bind m f)
  = match outcome m with
    | Ok a => trace m ++ trace (f a)
    | Raise _ => trace m
    end.
Proof. unfold bind. now destruct (outcome m). Qed.

Lemma outcome_bind {A B} (m : run A) (f : A -> run B) :
  outcome (bind m f)
  = match outcome m with
    | Ok a => outcome (f a)
    | Raise e => Raise e
    end.
Proof. unfold bind. now destruct (outcome m). Qed.

Section SchedulerProperties.

Variable upstream : string -> list Z -> response.

(** A check enters once, for its own user, whatever happens next. *)
Lemma checks_started_check (d : db) (uid' uid : Z) (key : string) (T : Q) :
  checks_started uid (trace (check_coefficients_for_user upstream d uid' key T))
  = if uid' =? uid then 1%nat else 0%nat.
Proof.
  unfold check_coefficients_for_user. rewrite bind_emit.
  assert (R : forall t, checks_started uid t = 0%nat ->
            checks_started uid (SelectUserWarehouses uid' :: t)
            = if uid' =? uid then 1%nat else 0%nat).
  { intros t Ht. unfold checks_started in *. simpl.
    destruct (uid' =? uid); simpl; now rewrite Ht. }
  simpl trace. apply R.
  destruct (warehouses_of_user d uid') as [| w ws]; [reflexivity |].
  unfold get_coefficients. rewrite bind_assoc, bind_emit. simpl trace.
  destruct (upstream key (w :: ws)) as [status json |].
  - rewrite bind_ret.
    destruct (collect (iter (if status =? 200 then DataList json
                             else DataError status)) T []) as [good | e].
    + rewrite bind_lift_ok. reflexivity.
    + rewrite bind_lift_raise. reflexivity.
  - rewrite bind_raise. reflexivity.
Qed.

Lemma poll_users_cons (d : db) (t : Z) (u : user) (rest : list user) :
  poll_users upstream d t (u :: rest)
  = match due t u with
    | Ok true =>
        check_coefficients_for_user upstream d (user_id u) (api_key u)
          (notification_threshold u) ;;
        poll_users upstream d t rest
    | Ok false => poll_users upstream d t rest
    | Raise e => raise e
    end.
Proof.
  simpl. destruct (due t u) as [[|] | e].
  - now rewrite bind_lift_ok.
  - now rewrite bind_lift_ok, bind_ret.
  - now rewrite bind_lift_raise.
Qed.

Lemma poll_users_skips_absent (d : db) (t uid : Z) (us : list user) :
  ~ In uid (map user_id us) ->
  checks_started uid (trace (poll_users upstream d t us)) = 0%nat.
Proof.
  induction us as [| u rest IH]; intro Hnot; [reflexivity |].
  simpl in Hnot. rewrite poll_users_cons.
  destruct (due t u) as [[|] | e].
  - rewrite trace_bind.
    assert (E : checks_started uid
                  (trace (check_coefficients_for_user upstream d (user_id u)
                            (api_key u) (notification_threshold u))) = 0%nat).
    { rewrite checks_started_check.
      destruct (user_id u =? uid) eqn:Q; [| reflexivity].
      apply Z.eqb_eq in Q. tauto. }
    destruct (outcome (check_coefficients_for_user upstream d (user_id u)
                         (api_key u) (notification_threshold u))); [| exact E].
    rewrite checks_started_app, E. apply IH. tauto.
  - apply IH. tauto.
  - reflexivity.
Qed.

Lemma poll_users_checks_due (d : db) (t : Z) (u : user) (us : list user) :
  NoDup (map user_id us) -> In u us ->
  let n := checks_started (user_id u) (trace (poll_users upstream d t us)) in
  (n <= 1)%nat
  /\ (n = 1%nat -> due t u = Ok true)
  /\ (outcome (poll_users upstream d t us) = Ok tt -> due t u = Ok true ->
      n = 1%nat).
Proof.
  induction us as [| v rest IH]; intros Hnd Hin; [contradiction |].
  simpl in Hnd. inversion Hnd as [| x l Hnot Hnd']; subst.
  cbv zeta. rewrite poll_users_cons.
  destruct Hin as [-> | Hin].
  - pose proof (poll_users_skips_absent d t (user_id u) rest Hnot) as Z0.
    destruct (due t u) as [[|] | e].
    + rewrite trace_bind, outcome_bind.
      pose proof (checks_started_check d (user_id u) (user_id u) (api_key u)
                    (notification_threshold u)) as C.
      rewrite Z.eqb_refl in C.
      destruct (outcome (check_coefficients_for_user upstream d (user_id u)
                           (api_key u) (notification_threshold u))).
      * rewrite checks_started_app, C, Z0. auto.
      * rewrite C. auto.
    + rewrite Z0. repeat split; auto; discriminate.
    + simpl. repeat split; auto; discriminate.
  - assert (Hne : (user_id v =? user_id u) = false).
    { apply Z.eqb_neq. intro E. apply Hnot. rewrite E. now apply in_map. }
    specialize (IH Hnd' Hin). cbv zeta in IH.
    destruct (due t v) as [[|] | e].
    + rewrite trace_bind, outcome_bind.
      pose proof (checks_started_check d (user_id v) (user_id u) (api_key v)
                    (notification_threshold v)) as C.
      rewrite Hne in C.
      destruct (outcome (check_coefficients_for_user upstream d (user_id v)
                           (api_key v) (notification_threshold v))).
      * rewrite checks_started_app, C. exact IH.
      * rewrite C. repeat split; auto; discriminate.
    + exact IH.
    + simpl. repeat split; auto; discriminate.
Qed.

Lemma due_nonzero (t : Z) (u : user) :
  polling_frequency u <> 0 ->
  due t u = Ok (t mod polling_frequency u =? 0).
Proof.
  intro Hf. unfold due, mod_. apply Z.eqb_neq in Hf. now rewrite Hf.
Qed.

(** The guard and the checks of one tick: a user with a non-zero frequency
    [f] passes the guard at tick [t] exactly when [t mod f = 0]; the check
    of a stored user is entered at most once, only when the user passes the
    guard, and once when the user passes it and the tick runs to its end. *)
Lemma completed_tick_checks_the_due (d : db) (t : Z) (u : user)
    (Hf : polling_frequency u <> 0)
    (Hids : NoDup (map user_id (users d)))
    (Hu : In u (users d)) :
  let n :=
    checks_started (user_id u) (trace (poll_users upstream d t (users d))) in
  (due t u = Ok true <-> t mod polling_frequency u = 0)
  /\ (n <= 1)%nat
  /\ (n = 1%nat -> t mod polling_frequency u = 0)
  /\ (outcome (poll_users upstream d t (users d)) = Ok tt ->
      t mod polling_frequency u = 0 -> n = 1%nat)
  /\ due 30 (User 1 1001 "key" 15 5) = Ok true
  /\ due 31 (User 1 1001 "key" 15 5) = Ok false.
Proof.
  assert (D : due t u = Ok true <-> t mod polling_frequency u = 0).
  { rewrite due_nonzero by exact Hf. split.
    - intro H. injection H as H. now apply Z.eqb_eq.
    - intro H. now rewrite H. }
  destruct (poll_users_checks_due d t u (users d) Hids Hu) as (L & O & C).
  cbv zeta. rewrite <- D. repeat split; auto; apply D; auto.
Qed.

(** The counter grows by one with every tick that returns: no tick number
    is used twice. *)
Lemma polling_loop_counter (fuel : nat) (store : Z -> db) (loop_num m : Z) :
  outcome (polling_loop upstream fuel store loop_num) = Ok m ->
  m = loop_num + Z.of_nat fuel.
Proof.
  revert loop_num. induction fuel as [| k IH]; intros loop_num H.
  - simpl in H. injection H as <-. lia.
  - cbn [polling_loop] in H. rewrite outcome_bind in H.
    destruct (outcome (poll_users upstream (store loop_num) loop_num
                         (users (store loop_num)))); [| discriminate].
    rewrite bind_emit in H. cbn [outcome] in H.
    apply IH in H. lia.
Qed.

(** An exception of a check is not caught by the loop over the users: the
    rest of the tick is not run. *)
Lemma poll_users_stops_at_failure (d : db) (t : Z) (u : user)
    (rest : list user) (e : exn) :
  due t u = Ok true ->
  outcome (check_coefficients_for_user upstream d (user_id u) (api_key u)
             (notification_threshold u)) = Raise e ->
  poll_users upstream d t (u :: rest)
  = Run (trace (check_coefficients_for_user upstream d (user_id u) (api_key u)
                  (notification_threshold u)))
        (Raise e).
Proof.
  intros Hdue Hraise. rewrite poll_users_cons, Hdue.
  unfold bind. now rewrite Hraise.
Qed.

(** Nor by the loop over the ticks: the first tick that raises is the last. *)
Lemma polling_loop_stops_at_failure (fuel : nat) (store : Z -> db)
    (loop_num : Z) (e : exn) :
  outcome (poll_users upstream (store loop_num) loop_num
             (users (store loop_num))) = Raise e ->
  polling_loop upstream (S fuel) store loop_num
  = Run (trace (poll_users upstream (store loop_num) loop_num
                  (users (store loop_num))))
        (Raise e).
Proof.
  intro Hraise. cbn [polling_loop]. unfold bind at 1. now rewrite Hraise.
Qed.

End SchedulerProperties.

Example completed_tick_checks_bob :
  polling_frequency bob <> 0
  /\ NoDup (map user_id (users db2))
  /\ In bob (users db2)
  /\ (due 30 bob = Ok true <-> 30 mod polling_frequency bob = 0)
  /\ checks_started (user_id bob)
       (trace (poll_users upstream_closed db2 30 (users db2))) = 1%nat.
Proof.
  assert (Hf : polling_frequency bob <> 0) by (simpl; lia).
  assert (Hids : NoDup (map user_id (users db2))).
  { simpl. constructor; [simpl; intros [H | []]; discriminate |].
    constructor; [intros [] | constructor]. }
  assert (Hu : In bob (users db2)) by (simpl; right; left; reflexivity).
  destruct (completed_tick_checks_the_due upstream_closed db2 30 bob Hf Hids Hu)
    as (D & _ & _ & C & _).
  split; [exact Hf |]. split; [exact Hids |]. split; [exact Hu |].
  split; [exact D |]. apply C; reflexivity.
Qed.

(** C2 on a concrete tick: Alice's key is refused with status 401 and Bob,
    due at the same tick, is served. Alice's check ends in a TypeError that
    nothing catches: the tick stops before Bob's check, and the loop ends at
    its first tick for every number of further iterations. An unreachable
    upstream ends the loop in the same way. *)
Theorem failed_fetch_ends_polling (fuel : nat) :
  due 0 alice = Ok true
  /\ due 0 bob = Ok true
  /\ poll_users upstream_401 db2 0 (users db2)
     = Run [SelectUserWarehouses 1; GetCoefficients "key-a" [3]]
           (Raise TypeError)
  /\ checks_started (user_id bob)
       (trace (poll_users upstream_401 db2 0 (users db2))) = 0%nat
  /\ start_polling upstream_401 (S fuel) (fun _ => db2)
     = Run [SelectUserWarehouses 1; GetCoefficients "key-a" [3]]
           (Raise TypeError)
  /\ start_polling upstream_down (S fuel) (fun _ => db2)
     = Run [SelectUserWarehouses 1; GetCoefficients "key-a" [3]]
           (Raise ClientError).
Proof. repeat split; reflexivity. Qed.

(** C4 on a concrete run: Alice and Bob both have frequency 15 and choose
    their warehouses between tick 14 and tick 15; Alice's key is refused with
    status 401. Both are checked at tick 0. At tick 15 both pass the guard,
    but Alice's check ends in a TypeError that nothing catches, so the check
    of Bob is not entered at the tick at which he is due, nor at any later
    tick: in sixteen ticks or more his check is entered once, where the
    multiples of 15 are two. The guard itself decides as the claim says: a
    user with frequency 15 passes it at tick 30 and not at tick 31. The
    same happens at the first tick when the two users have their
    subscriptions from the start: Bob is due at tick 0 and never checked. *)
Theorem due_user_is_skipped_after_failed_check (fuel : nat) :
  15 mod polling_frequency bob = 0
  /\ due 15 bob = Ok true
  /\ start_polling upstream_401 (16 + fuel) store_chosen_at_15
     = Run ([SelectUserWarehouses 1; SelectUserWarehouses 2]
            ++ repeat (Sleep 60) 15
            ++ [SelectUserWarehouses 1; GetCoefficients "key-a" [3]])
           (Raise TypeError)
  /\ checks_started (user_id bob)
       (trace (start_polling upstream_401 (16 + fuel) store_chosen_at_15))
     = 1%nat
  /\ checks_started (user_id bob)
       (trace (poll_users upstream_401 (store_chosen_at_15 15) 15
                 (users (store_chosen_at_15 15))))
     = 0%nat
  /\ due 30 bob = Ok true
  /\ due 31 bob = Ok false
  /\ due 0 bob = Ok true
  /\ checks_started (user_id bob)
       (trace (start_polling upstream_401 (S fuel) (fun _ => db2)))
     = 0%nat.
Proof.
  assert (R : start_polling upstream_401 (16 + fuel) store_chosen_at_15
              = Run ([SelectUserWarehouses 1; SelectUserWarehouses 2]
                     ++ repeat (Sleep 60) 15
                     ++ [SelectUserWarehouses 1; GetCoefficients "key-a" [3]])
                    (Raise TypeError)) by reflexivity.
  split; [reflexivity |]. split; [reflexivity |]. split; [exact R |].
  split; [rewrite R; reflexivity |].
  split; [reflexivity |]. split; [reflexivity |]. split; [reflexivity |].
  split; reflexivity.
Qed.

(** ** The frequency handler *)

Lemma process_new_polling_frequency_ok (d : db) (data : string) (tid f : Z) :
  int_field data (-1) = Ok f ->
  process_new_polling_frequency d data tid
  = Run [MessageAnswer "🔄 Частота опроса обновлена!" None;
         MessageAnswer "🏠 Главное меню:"
           (Some [[Button "⚙️ Настройки:" "settings"]])]
        (Ok (set_polling_frequency d f tid)).
Proof.
  intro H. unfold process_new_polling_frequency. rewrite H, bind_lift_ok.
  reflexivity.
Qed.

Lemma set_polling_frequency_users (P : Z -> Prop) (d : db) (f tid : Z) :
  P f ->
  Forall (fun u => P (polling_frequency u)) (users d) ->
  Forall (fun u => P (polling_frequency u))
         (users (set_polling_frequency d f tid)).
Proof.
  intros Hf Hall. simpl. apply Forall_map.
  eapply Forall_impl; [| exact Hall].
  intros u Hu. simpl. destruct (telegram_id u =? tid); simpl; assumption.
Qed.

(** The rows of [users] after the frequency update: those of the tables
    before it, the rows of the sender with the new frequency in place of the
    old. *)
Lemma set_polling_frequency_rows (d : db) (f tid : Z) (u' : user) :
  In u' (users (set_polling_frequency d f tid))
  <-> exists u : user,
        In u (users d)
        /\ u' = (if telegram_id u =? tid
                 then User (user_id u) (telegram_id u) (api_key u) f
                           (notification_threshold u)
                 else u).
Proof.
  cbn [users set_polling_frequency]. rewrite in_map_iff.
  split; intros (u & A & B); exists u; [split; [exact B | now symmetry] |].
  split; [now symmetry | exact A].
Qed.

(** C5, as amended: the four tokens of the frequency keyboard name the four
    members of {5, 15, 30, 60}; for a callback whose data is the token of
    the member [f], the handler passes its filter, answers and stores [f]
    itself, in one write: the rows of the sender carry [f], every other row
    and the other two tables are as before. A store whose frequencies lie
    in the set keeps them there, every one at least 1, and the due
    computation of every stored user returns without a division by zero. *)
Theorem offered_frequency_is_stored (d : db) (f tid : Z)
    (Hf : In f offered_frequencies)
    (Hstore : Forall (fun u => In (polling_frequency u) offered_frequencies)
                (users d)) :
  offered_tokens
  = map (fun g => ("set_polling_" ++ str_of_int g)%string) offered_frequencies
  /\ is_set_polling ("set_polling_" ++ str_of_int f) = true
  /\ exists d' : db,
       process_new_polling_frequency d ("set_polling_" ++ str_of_int f) tid
       = Run [MessageAnswer "🔄 Частота опроса обновлена!" None;
              MessageAnswer "🏠 Главное меню:"
                (Some [[Button "⚙️ Настройки:" "settings"]])]
             (Ok d')
       /\ warehouses d' = warehouses d
       /\ user_warehouses d' = user_warehouses d
       /\ (forall u' : user,
             In u' (users d')
             <-> exists u : user,
                   In u (users d)
                   /\ u' = (if telegram_id u =? tid
                            then User (user_id u) (telegram_id u) (api_key u) f
                                      (notification_threshold u)
                            else u))
       /\ Forall (fun u => In (polling_frequency u) offered_frequencies
                         /\ 1 <= polling_frequency u)
            (users d')
       /\ forall (t : Z) (u : user),
            In u (users d') -> due t u = Ok (t mod polling_frequency u =? 0).
Proof.
  assert (P : is_set_polling ("set_polling_" ++ str_of_int f) = true
              /\ int_field ("set_polling_" ++ str_of_int f) (-1) = Ok f).
  { simpl in Hf.
    destruct Hf as [<- | [<- | [<- | [<- | []]]]]; split; reflexivity. }
  destruct P as (Hfilter & Hparse).
  assert (A : Forall (fun u => In (polling_frequency u) offered_frequencies)
                (users (set_polling_frequency d f tid)))
    by (apply (set_polling_frequency_users
                 (fun x => In x offered_frequencies)); assumption).
  assert (B : forall x, In x offered_frequencies -> 1 <= x)
    by (simpl; intros x Hx; lia).
  split; [reflexivity |]. split; [exact Hfilter |].
  exists (set_polling_frequency d f tid).
  split; [exact (process_new_polling_frequency_ok d _ tid f Hparse) |].
  split; [reflexivity |]. split; [reflexivity |].
  split; [apply set_polling_frequency_rows |].
  split.
  - eapply Forall_impl; [| exact A]. simpl. intros u Hu. split; auto.
  - intros t u Hu. apply due_nonzero.
    rewrite Forall_forall in A. specialize (B _ (A u Hu)). lia.
Qed.

Lemma offered_frequency_is_stored_witness :
  In 15 offered_frequencies
  /\ Forall (fun u => In (polling_frequency u) offered_frequencies) (users db2)
  /\ exists d' : db,
       outcome (process_new_polling_frequency db2 "set_polling_15" 1001)
       = Ok d'
       /\ (In (User 1 1001 "key-a" 15 5) (users d')
           /\ ~ In alice (users d'))
       /\ forall (t : Z) (u : user),
            In u (users d') -> due t u = Ok (t mod polling_frequency u =? 0).
Proof.
  assert (Hf : In 15 offered_frequencies) by (simpl; tauto).
  assert (Hstore : Forall (fun u => In (polling_frequency u) offered_frequencies)
                     (users db2)).
  { simpl. constructor; [simpl; tauto |]. constructor; [simpl; tauto |].
    constructor. }
  split; [exact Hf |]. split; [exact Hstore |].
  destruct (offered_frequency_is_stored db2 15 1001 Hf Hstore)
    as (_ & _ & d' & R & _ & _ & Rows & _ & D).
  exists d'. split; [exact (f_equal outcome R) |]. split; [| exact D].
  split.
  - apply Rows. exists alice. split; [simpl; auto | reflexivity].
  - intro H. apply Rows in H. destruct H as (u & [<- | [<- | []]] & E);
      discriminate E.
Defined.

(** C5, as stated, fails on a token the keyboard does not offer: the handler
    accepts every data that starts with its prefix, stores the integer after
    the last underscore as it is, here 0, and the next due computation for
    that user divides by zero. *)
Lemma unoffered_frequency_zero_is_stored :
  is_set_polling "set_polling_0" = true
  /\ outcome (process_new_polling_frequency db2 "set_polling_0" 1001)
     = Ok (Db [User 1 1001 "key-a" 0 5; bob] catalog7 [(3, 1); (4, 2)])
  /\ ~ In 0 offered_frequencies
  /\ due 1 (User 1 1001 "key-a" 0 5) = Raise ZeroDivisionError.
Proof.
  split; [reflexivity |]. split; [reflexivity |].
  split; [simpl; lia | reflexivity].
Qed.

(** ** The threshold handler *)

Section ThresholdProperties.

Variable float_of_str : string -> option pyfloat.

(** Input that [float] refuses, or a value the constraint refuses, stores
    nothing and reprompts. *)
Lemma invalid_threshold_reprompts (c : context) (text : string) (tid : Z) :
  float_of_str text = None
  \/ (exists f, float_of_str text = Some f /\ threshold_in_bounds f = None
               /\ user_id_of (store c) tid <> None) ->
  process_new_notification_threshold float_of_str c (Some text) tid
  = Run [MessageAnswer "⚠️ Пожалуйста, введите число от 0 до 20." None]
        (Ok c).
Proof.
  unfold process_new_notification_threshold, float_.
  intros [H | (f & H & Hb & Hu)]; rewrite H.
  - reflexivity.
  - rewrite bind_lift_ok. unfold set_notification_threshold. rewrite Hb.
    assert (E : existsb (fun u => telegram_id u =? tid) (users (store c)) = true).
    { unfold user_id_of in Hu.
      destruct (find (fun u => telegram_id u =? tid) (users (store c)))
        as [u |] eqn:F; [| now contradiction Hu].
      apply existsb_exists. exists u.
      apply find_some in F. exact F. }
    rewrite E. reflexivity.
Qed.

(** The handler never writes the conversation state: whenever it returns,
    the state is the one it was called in, and it raises only on a message
    without text. *)
Lemma threshold_handler_keeps_state (c : context) (text : option string)
    (tid : Z) :
  match outcome (process_new_notification_threshold float_of_str c text tid) with
  | Ok c' => state c' = state c
  | Raise e => e = TypeError /\ text = None
  end.
Proof.
  unfold process_new_notification_threshold, float_.
  destruct text as [s |]; [| simpl; auto].
  destruct (float_of_str s) as [f |]; [| reflexivity].
  rewrite bind_lift_ok. unfold set_notification_threshold.
  destruct (existsb _ _); [| reflexivity].
  destruct (threshold_in_bounds f); reflexivity.
Qed.

End ThresholdProperties.

(** C6 on a concrete input: Alice is in the threshold-editing state and
    sends "7". The threshold 7 is written once and the main menu is shown,
    but the conversation stays in the editing state instead of returning to
    idle, as it does for every input the handler returns on; the handler
    that ends the warehouse selection does clear the state. *)
Theorem valid_threshold_keeps_editing_state
    (float_of_str : string -> option pyfloat) (c : context)
    (text : option string) (tid : Z) :
  process_new_notification_threshold float_of_numeral
    (Context db2 (Some editing_notification_threshold)) (Some "7"%string) 1001
  = Run [MessageAnswer "📊 Порог коэффициента обновлён!" None;
         MessageAnswer "🏠 Главное меню:"
           (Some [[Button "⚙️ Настройки:" "settings"]])]
        (Ok (Context (Db [User 1 1001 "key-a" 5 7; bob] catalog7
                         [(3, 1); (4, 2)])
                     (Some editing_notification_threshold)))
  /\ match outcome (process_new_notification_threshold float_of_str c text tid)
     with
     | Ok c' => state c' = state c
     | Raise e => e = TypeError /\ text = None
     end
  /\ outcome (finish_warehouse_selection c) = Ok (Context (store c) None).
Proof.
  split; [reflexivity |].
  split; [apply threshold_handler_keeps_state | reflexivity].
Qed.

(** ** The catalog refresh *)

Lemma upsert_warehouse_rows (ws : list warehouse) (wid : Z) (nm : string)
    (now : Z) (w : warehouse) :
  In w (upsert_warehouse ws wid nm now) ->
  In w ws \/ w = Warehouse wid nm now.
Proof.
  induction ws as [| v rest IH]; simpl.
  - intros [<- | []]. now right.
  - destruct (warehouse_id v =? wid); simpl.
    + intros [<- | H]; auto.
    + intros [<- | H]; auto. destruct (IH H); auto.
Qed.

(** Every row of the catalog after a refresh was there before, or has a
    name without the marker. *)
Lemma refresh_rows (now : Z) (data : list warehouse_dict) (ws : list warehouse) :
  Forall (fun w => contains marker (name w) = false \/ In w ws)
         (update_warehouses_in_db now data ws).
Proof.
  revert ws. induction data as [| e rest IH]; intro ws; simpl.
  - apply Forall_forall. auto.
  - destruct (contains marker (dict_name e)) eqn:M; simpl.
    + apply IH.
    + eapply Forall_impl; [| apply IH].
      intros w [H | H]; [now left |].
      apply upsert_warehouse_rows in H. destruct H as [H | ->]; auto.
Qed.

Lemma refresh_keeps_clean (now : Z) (data : list warehouse_dict)
    (ws : list warehouse) :
  Forall (fun w => contains marker (name w) = false) ws ->
  Forall (fun w => contains marker (name w) = false)
         (update_warehouses_in_db now data ws).
Proof.
  intro Hc. eapply Forall_impl; [| apply refresh_rows].
  intros w [H | H]; [exact H |].
  rewrite Forall_forall in Hc. now apply Hc.
Qed.

(** C7: a refresh inserts no row whose name contains the marker: every row
    of the catalog after it either has a clean name or was in the catalog
    before; and in a catalog built by refreshes of the empty table no row
    has the marker in its name. *)
Theorem refresh_never_stores_marked_names (now : Z)
    (data : list warehouse_dict) (ws : list warehouse)
    (runs : list (Z * list warehouse_dict)) :
  Forall (fun w => contains marker (name w) = false \/ In w ws)
         (update_warehouses_in_db now data ws)
  /\ Forall (fun w => contains marker (name w) = false) (refreshes runs).
Proof.
  split; [apply refresh_rows |].
  unfold refreshes.
  assert (G : forall start,
             Forall (fun w => contains marker (name w) = false) start ->
             Forall (fun w => contains marker (name w) = false)
               (fold_left
                  (fun ws r => update_warehouses_in_db (fst r) (snd r) ws)
                  runs start)).
  { induction runs as [| r rest IH]; intros start Hs; simpl; [exact Hs |].
    apply IH. now apply refresh_keeps_clean. }
  apply G. constructor.
Qed.

(** A refresh with a marked and a clean entry, on the scenario catalog. *)
Example refresh_skips_marked :
  map name
    (update_warehouses_in_db 9
       [WarehouseDict 8 "СЦ Внуково"; WarehouseDict 9 "Тула"] [])
  = ["Тула"%string].
Proof. reflexivity. Qed.

(** ** The subscription toggle *)

Lemma mem_In (x : Z) (l : list Z) : mem x l = true <-> In x l.
Proof.
  unfold mem. rewrite existsb_exists. split.
  - intros (y & Hy & E). apply Z.eqb_eq in E. now subst.
  - intro H. exists x. split; [exact H | apply Z.eqb_refl].
Qed.

Lemma warehouses_of_user_In (d : db) (uid w : Z) :
  In w (warehouses_of_user d uid) <-> In (w, uid) (user_warehouses d).
Proof.
  unfold warehouses_of_user. rewrite in_map_iff. split.
  - intros ([a b] & E & H). apply filter_In in H. destruct H as [H Q].
    simpl in *. apply Z.eqb_eq in Q. now subst.
  - intro H. exists (w, uid). split; [reflexivity |].
    apply filter_In. split; [exact H | apply Z.eqb_refl].
Qed.

Lemma subscribed_In (rows : list subscription) (w uid : Z) :
  subscribed rows w uid = true <-> In (w, uid) rows.
Proof.
  unfold subscribed. rewrite existsb_exists. split.
  - intros ([a b] & H & E). simpl in E.
    apply andb_true_iff in E. destruct E as [E1 E2].
    apply Z.eqb_eq in E1, E2. now subst.
  - intro H. exists (w, uid). split; [exact H |].
    simpl. now rewrite !Z.eqb_refl.
Qed.

Lemma warehouse_selected_outcome (d : db) (data : string) (tid w p : Z) :
  int_field data 1 = Ok w ->
  int_field data 3 = Ok p ->
  outcome (warehouse_selected d data tid)
  = if mem w (warehouses_of_telegram d tid)
    then Ok (delete_subscription d tid w)
    else insert_subscription d w tid.
Proof.
  intros Hw Hp. unfold warehouse_selected.
  rewrite Hw, bind_lift_ok, Hp, bind_lift_ok.
  destruct (mem w (warehouses_of_telegram d tid)).
  - reflexivity.
  - rewrite bind_emit. simpl outcome. rewrite outcome_bind.
    destruct (insert_subscription d w tid); reflexivity.
Qed.

(** Two toggles with the same data, for any data the handler can parse. *)
Lemma toggle_twice_parsed (d : db) (data : string)
    (tid uid w p : Z)
    (Huser : user_id_of d tid = Some uid)
    (Hw : int_field data 1 = Ok w)
    (Hp : int_field data 3 = Ok p) :
  exists d1 d2 : db,
    outcome (warehouse_selected d data tid) = Ok d1
    /\ outcome (warehouse_selected d1 data tid) = Ok d2
    /\ (forall r, In r (user_warehouses d2) <-> In r (user_warehouses d))
    /\ users d2 = users d
    /\ warehouses d2 = warehouses d
    /\ (warehouses_of_user d uid = [] ->
        user_warehouses d1 = user_warehouses d ++ [(w, uid)]
        /\ warehouses_of_user d1 uid = [w]
        /\ user_warehouses d2 = user_warehouses d
        /\ warehouses_of_user d2 uid = []).
Proof.
  rewrite (warehouse_selected_outcome d data tid w p Hw Hp).
  unfold warehouses_of_telegram. rewrite Huser.
  set (keep := fun r : subscription => negb ((snd r =? uid) && (fst r =? w))).
  assert (K : forall r, keep r = false <-> r = (w, uid)).
  { intros [a b]. unfold keep. simpl.
    rewrite negb_false_iff, andb_true_iff, !Z.eqb_eq.
    split; [intros [-> ->]; reflexivity | intro E; inversion E; auto]. }
  destruct (mem w (warehouses_of_user d uid)) eqn:M.
  - (* subscribed: delete, then insert *)
    apply mem_In, warehouses_of_user_In in M.
    set (d1 := delete_subscription d tid w).
    assert (E1 : d1 = Db (users d) (warehouses d)
                         (filter keep (user_warehouses d)))
      by (unfold d1, delete_subscription; now rewrite Huser).
    assert (U1 : user_id_of d1 tid = Some uid) by (rewrite E1; exact Huser).
    assert (N1 : mem w (warehouses_of_user d1 uid) = false).
    { apply not_true_iff_false. rewrite mem_In, warehouses_of_user_In, E1.
      simpl. rewrite filter_In. intros [_ Q].
      assert (F : keep (w, uid) = false) by now apply K. congruence. }
    assert (S1 : subscribed (user_warehouses d1) w uid = false).
    { apply not_true_iff_false. rewrite subscribed_In.
      rewrite <- warehouses_of_user_In, <- mem_In. congruence. }
    exists d1, (Db (users d) (warehouses d)
                   (filter keep (user_warehouses d) ++ [(w, uid)])).
    split; [reflexivity |]. split.
    { rewrite (warehouse_selected_outcome d1 data tid w p Hw Hp).
      unfold warehouses_of_telegram. rewrite U1, N1.
      unfold insert_subscription. rewrite U1, S1, E1. reflexivity. }
    split.
    { intro r. simpl. rewrite in_app_iff, filter_In. simpl. split.
      - intros [[H _] | [<- | []]]; assumption.
      - intro H. destruct (keep r) eqn:Q; [left; auto |].
        right. left. symmetry. now apply K. }
    split; [reflexivity |]. split; [reflexivity |].
    intro E. apply warehouses_of_user_In in M. rewrite E in M. contradiction.
  - (* not subscribed: insert, then delete *)
    assert (NI : ~ In (w, uid) (user_warehouses d)).
    { rewrite <- warehouses_of_user_In, <- mem_In. congruence. }
    assert (S0 : subscribed (user_warehouses d) w uid = false)
      by (apply not_true_iff_false; now rewrite subscribed_In).
    unfold insert_subscription. rewrite Huser, S0.
    set (d1 := Db (users d) (warehouses d) (user_warehouses d ++ [(w, uid)])).
    assert (U1 : user_id_of d1 tid = Some uid) by exact Huser.
    assert (M1 : mem w (warehouses_of_user d1 uid) = true).
    { apply mem_In, warehouses_of_user_In. simpl. apply in_app_iff.
      right. now left. }
    assert (F : filter keep (user_warehouses d ++ [(w, uid)])
                = user_warehouses d).
    { rewrite filter_app. simpl.
      assert (Q : keep (w, uid) = false) by now apply K.
      rewrite Q, app_nil_r.
      apply forallb_filter_id, forallb_forall. intros r Hr.
      destruct (keep r) eqn:Kr; [reflexivity |].
      apply K in Kr. subst. contradiction. }
    exists d1, (Db (users d) (warehouses d) (user_warehouses d)).
    split; [reflexivity |]. split.
    { rewrite (warehouse_selected_outcome d1 data tid w p Hw Hp).
      unfold warehouses_of_telegram. rewrite U1, M1.
      unfold delete_subscription. rewrite U1.
      unfold d1. cbn [users warehouses user_warehouses].
      do 2 f_equal. exact F. }
    split; [intro r; reflexivity |].
    split; [reflexivity |]. split; [reflexivity |].
    intro E. split; [reflexivity |].
    split; [| split; [reflexivity | exact E]].
    unfold warehouses_of_user, d1. cbn [user_warehouses].
    rewrite filter_app, map_app.
    change (map fst (filter (fun r : Z * Z => snd r =? uid) (user_warehouses d)))
      with (warehouses_of_user d uid).
    rewrite E. simpl. now rewrite Z.eqb_refl.
Qed.

(** The scenario of the specification, evaluated: one row after the first
    toggle, none after the second. *)
Example toggle_scenario :
  outcome (warehouse_selected db1 "select_3_page_0" 1001)
  = Ok (Db [alice] catalog7 [(3, 1)])
  /\ outcome (warehouse_selected (Db [alice] catalog7 [(3, 1)])
               "select_3_page_0" 1001)
     = Ok db1.
Proof. split; reflexivity. Qed.

(** ** The selection keyboard *)

Lemma selection_rows_cons (sel : list Z) (page index : Z) (w : warehouse)
    (rest : list warehouse) (buttons : list InlineKeyboardButton)
    (builder : keyboard) :
  selection_rows sel page index (w :: rest) buttons builder
  = if index mod 2 =? 1
    then selection_rows sel page (index + 1) rest []
           (row builder (buttons ++ [select_button sel page w]))
    else selection_rows sel page (index + 1) rest
           (buttons ++ [select_button sel page w]) builder.
Proof. reflexivity. Qed.

Lemma selection_rows_pairs (sel : list Z) (page : Z) (ws : list warehouse) :
  forall (index : Z) (builder : keyboard),
    (index mod 2 = 0 ->
     selection_rows sel page index ws [] builder
     = builder ++ pair_rows (map (select_button sel page) ws))
    /\ (index mod 2 = 1 ->
        forall b0,
          selection_rows sel page index ws [b0] builder
          = builder ++ pair_rows (b0 :: map (select_button sel page) ws)).
Proof.
  induction ws as [| w rest IH]; intros index builder.
  - split; intros; cbn [selection_rows map pair_rows]; now rewrite app_nil_r.
  - split.
    + intro Hev. rewrite selection_rows_cons, Hev.
      change (0 =? 1) with false. cbv iota.
      destruct (IH (index + 1) builder) as [_ Hodd].
      apply Hodd. revert Hev. clear. intro. Z.div_mod_to_equations. lia.
    + intros Hodd b0. rewrite selection_rows_cons, Hodd.
      change (1 =? 1) with true. cbv iota.
      destruct (IH (index + 1) (builder ++ [[b0; select_button sel page w]]))
        as [Hev _].
      change (row builder ([b0] ++ [select_button sel page w]))
        with (builder ++ [[b0; select_button sel page w]]).
      rewrite Hev by (revert Hodd; clear; intro; Z.div_mod_to_equations; lia).
      cbn [map pair_rows]. now rewrite <- app_assoc.
Qed.

Lemma pair_rows_shape (bs : list InlineKeyboardButton) :
  Forall (fun r => List.length r = 2%nat) (pair_rows bs)
  /\ (Nat.odd (List.length bs) = true ->
      List.concat (pair_rows bs) = removelast bs)
  /\ (Nat.even (List.length bs) = true -> List.concat (pair_rows bs) = bs).
Proof.
  assert (G : forall l : list InlineKeyboardButton,
             (Forall (fun r => List.length r = 2%nat) (pair_rows l)
              /\ (Nat.odd (List.length l) = true ->
                  List.concat (pair_rows l) = removelast l)
              /\ (Nat.even (List.length l) = true ->
                  List.concat (pair_rows l) = l))
             /\ forall a,
                 (Forall (fun r => List.length r = 2%nat) (pair_rows (a :: l))
                  /\ (Nat.odd (List.length (a :: l)) = true ->
                      List.concat (pair_rows (a :: l)) = removelast (a :: l))
                  /\ (Nat.even (List.length (a :: l)) = true ->
                      List.concat (pair_rows (a :: l)) = a :: l))).
  { induction l as [| b l [IHl IHc]].
    - split; [| intro a]; simpl; repeat split; auto; discriminate.
    - split; [apply IHc |]. intro a.
      destruct IHl as (F & O & E). split; [| split].
      + simpl. constructor; [reflexivity | exact F].
      + intro H. change (Nat.odd (List.length l) = true) in H.
        simpl pair_rows. simpl List.concat. rewrite (O H).
        destruct l as [| c l']; [discriminate H | reflexivity].
      + intro H. change (Nat.even (List.length l) = true) in H.
        simpl pair_rows. simpl List.concat. now rewrite (E H). }
  apply G.
Qed.

Lemma str_of_int_inj (a b : Z) : str_of_int a = str_of_int b -> a = b.
Proof.
  assert (P : forall z, NilZero.int_of_string (str_of_int z) = Some (Z.to_int z)).
  { intro z. unfold str_of_int. apply NilZero.isi; destruct z; simpl;
      try discriminate; intro H; injection H;
      apply DecimalPos.Unsigned.to_uint_nonnil. }
  intro H. apply (f_equal NilZero.int_of_string) in H. rewrite !P in H.
  injection H as H. apply (f_equal Z.of_int) in H.
  now rewrite !DecimalZ.of_to in H.
Qed.

Lemma append_inv_head (s a b : string) :
  (s ++ a)%string = (s ++ b)%string -> a = b.
Proof.
  induction s as [| c s IH]; simpl; intro H; [exact H |].
  injection H as H. now apply IH.
Qed.

Lemma list_ascii_of_append (a b : string) :
  list_ascii_of_string (a ++ b)
  = list_ascii_of_string a ++ list_ascii_of_string b.
Proof. induction a as [| c a IH]; simpl; [reflexivity | now rewrite IH]. Qed.

Lemma append_inv_tail (a b t : string) :
  (a ++ t)%string = (b ++ t)%string -> a = b.
Proof.
  intro H. apply (f_equal list_ascii_of_string) in H.
  rewrite !list_ascii_of_append in H. apply app_inv_tail in H.
  apply (f_equal string_of_list_ascii) in H.
  now rewrite !string_of_list_ascii_of_string in H.
Qed.

Lemma select_button_inj (sel : list Z) (page : Z) (v w : warehouse) :
  callback_data (select_button sel page v)
  = callback_data (select_button sel page w) ->
  warehouse_id v = warehouse_id w.
Proof.
  cbn [callback_data select_button]. intro H.
  apply append_inv_head in H.
  apply str_of_int_inj.
  apply (append_inv_tail _ _ ("_page_" ++ str_of_int page)%string).
  exact H.
Qed.

Lemma navigation_row_data (page end_index len : Z) (b : InlineKeyboardButton)
    (s : string) :
  In b (navigation_row page end_index len) ->
  callback_data b <> ("select_" ++ s)%string.
Proof.
  unfold navigation_row. rewrite !in_app_iff. intros [H | [H | H]].
  - destruct (0 <? page); [| contradiction].
    destruct H as [<- | []]. cbn [callback_data append]. discriminate.
  - destruct H as [<- | []]. cbn [callback_data append]. discriminate.
  - destruct (end_index <? len); [| contradiction].
    destruct H as [<- | []]. cbn [callback_data append]. discriminate.
Qed.

Lemma generate_warehouse_keyboard_rows (d : db) (sel : list Z) (page : Z) :
  generate_warehouse_keyboard d sel page
  = pair_rows (map (select_button sel page)
                   (paginated_warehouses (warehouses d) page))
    ++ [navigation_row page (page * WAREHOUSES_PER_PAGE + WAREHOUSES_PER_PAGE)
          (Z.of_nat (List.length (warehouses d)))].
Proof.
  unfold generate_warehouse_keyboard.
  destruct (selection_rows_pairs sel page
              (paginated_warehouses (warehouses d) page) 0 []) as [E _].
  rewrite (E eq_refl). cbn [app].
  unfold navigation_row, row.
  destruct (0 <? page); reflexivity.
Qed.

Lemma slice_NoDup (ids : warehouse -> Z) (ws : list warehouse) (a b : Z) :
  NoDup (map ids ws) -> NoDup (map ids (slice ws a b)).
Proof.
  intro H. unfold slice.
  set (n := Z.to_nat _). set (m := Z.to_nat _).
  rewrite <- firstn_map, <- skipn_map.
  rewrite <- (firstn_skipn m (map ids ws)) in H.
  apply NoDup_app_remove_l in H.
  rewrite <- (firstn_skipn n (skipn m (map ids ws))) in H.
  now apply NoDup_app_remove_r in H.
Qed.

(** C10: when the slice of the catalog shown on a page holds an odd number
    of warehouses, the keyboard is the rows of two selection buttons for all
    warehouses of the slice but the last, in order, followed by the
    navigation row: the button of the last warehouse, left without a
    partner, is in no row. With the ids of the catalog distinct, no button
    of the keyboard carries the selection token of that warehouse. *)
Theorem keyboard_drops_unpaired_button (d : db) (sel : list Z) (page : Z)
    (Hodd : Nat.odd (List.length (paginated_warehouses (warehouses d) page))
            = true) :
  exists (init : list warehouse) (w_last : warehouse) (rows : keyboard),
    paginated_warehouses (warehouses d) page = init ++ [w_last]
    /\ generate_warehouse_keyboard d sel page
       = rows
         ++ [navigation_row page
               (page * WAREHOUSES_PER_PAGE + WAREHOUSES_PER_PAGE)
               (Z.of_nat (List.length (warehouses d)))]
    /\ Forall (fun r => List.length r = 2%nat) rows
    /\ List.concat rows = map (select_button sel page) init
    /\ (NoDup (map warehouse_id (warehouses d)) ->
        ~ In (callback_data (select_button sel page w_last))
             (map callback_data
                (List.concat (generate_warehouse_keyboard d sel page)))).
Proof.
  set (ws := paginated_warehouses (warehouses d) page) in *.
  assert (Hne : ws <> []) by (intro E; rewrite E in Hodd; discriminate).
  destruct (exists_last Hne) as (init & w_last & Hws).
  set (bs := map (select_button sel page) ws).
  destruct (pair_rows_shape bs) as (F & O & _).
  assert (C : List.concat (pair_rows bs) = map (select_button sel page) init).
  { rewrite O by (unfold bs; now rewrite length_map).
    unfold bs. rewrite Hws, map_app. apply removelast_last. }
  exists init, w_last, (pair_rows bs).
  split; [exact Hws |].
  split; [apply generate_warehouse_keyboard_rows |].
  split; [exact F |]. split; [exact C |].
  intros Hids Hin.
  rewrite generate_warehouse_keyboard_rows in Hin. fold ws bs in Hin.
  rewrite concat_app, C in Hin. cbn [List.concat] in Hin.
  rewrite app_nil_r, map_app, in_app_iff in Hin.
  destruct Hin as [Hin | Hin]; apply in_map_iff in Hin;
    destruct Hin as (b & Hb & Hbin).
  - apply in_map_iff in Hbin. destruct Hbin as (v & <- & Hv).
    apply select_button_inj in Hb.
    apply (slice_NoDup warehouse_id _ (page * WAREHOUSES_PER_PAGE)
             (page * WAREHOUSES_PER_PAGE + WAREHOUSES_PER_PAGE)) in Hids.
    fold (paginated_warehouses (warehouses d) page) in Hids. fold ws in Hids.
    rewrite Hws, map_app in Hids. cbn [map] in Hids.
    apply NoDup_remove_2 in Hids. apply Hids.
    rewrite app_nil_r, <- Hb. now apply in_map.
  - revert Hb. cbn [callback_data select_button].
    now apply navigation_row_data with (1 := Hbin).
Qed.

Lemma keyboard_drops_unpaired_button_witness :
  Nat.odd (List.length (paginated_warehouses (warehouses db1) 1)) = true
  /\ exists (init : list warehouse) (w_last : warehouse) (rows : keyboard),
       paginated_warehouses (warehouses db1) 1 = init ++ [w_last]
       /\ generate_warehouse_keyboard db1 [] 1
          = rows
            ++ [navigation_row 1 (1 * WAREHOUSES_PER_PAGE + WAREHOUSES_PER_PAGE)
                  (Z.of_nat (List.length (warehouses db1)))]
       /\ Forall (fun r => List.length r = 2%nat) rows
       /\ List.concat rows = map (select_button [] 1) init
       /\ (NoDup (map warehouse_id (warehouses db1)) ->
           ~ In (callback_data (select_button [] 1 w_last))
                (map callback_data
                   (List.concat (generate_warehouse_keyboard db1 [] 1)))).
Proof.
  split; [reflexivity |].
  exact (keyboard_drops_unpaired_button db1 [] 1 eq_refl).
Defined.

(** The last page of a catalog of seven warehouses: the seventh warehouse
    has no button. *)
Example last_page_of_seven :
  map (map callback_data) (generate_warehouse_keyboard db1 [] 1)
  = [["page_0"; "done"]]%string
  /\ map warehouse_id (paginated_warehouses (warehouses db1) 1) = [7].
Proof. split; reflexivity. Qed.

(** ** The tokens of the keyboards are the data the handlers read *)

Lemma uint_chars_plain (d : Decimal.uint) :
  forallb plain (list_ascii_of_string (NilEmpty.string_of_uint d)) = true.
Proof. induction d; simpl; auto. Qed.

Lemma digits_from_positive (d : Decimal.uint) :
  forall (acc : positive) (after_digit : bool),
    d <> Decimal.Nil \/ after_digit = true ->
    digits (Z.pos acc) after_digit
           (list_ascii_of_string (NilEmpty.string_of_uint d))
    = Some (Z.pos (Pos.of_uint_acc d acc)).
Proof.
  induction d; intros acc flag H;
    try (cbn [NilEmpty.string_of_uint list_ascii_of_string digits];
         match goal with
         | |- context [Ascii.eqb ?c "_"] =>
             change (Ascii.eqb c "_") with false; cbv iota
         end;
         match goal with
         | |- context [digit ?c] =>
             let v := eval vm_compute in (digit c) in
             change (digit c) with v; cbv iota
         end;
         cbn [Pos.of_uint_acc];
         match goal with
         | |- digits ?z true _ = Some (Z.pos (Pos.of_uint_acc _ ?q)) =>
             replace z with (Z.pos q) by lia
         end;
         apply IHd; now right).
  destruct H as [H | ->]; [now contradiction H | reflexivity].
Qed.

Lemma digits_from_zero (d : Decimal.uint) :
  forall after_digit : bool,
    d <> Decimal.Nil \/ after_digit = true ->
    digits 0 after_digit (list_ascii_of_string (NilEmpty.string_of_uint d))
    = Some (Z.of_N (Pos.of_uint d)).
Proof.
  induction d; intros flag H;
    try (cbn [NilEmpty.string_of_uint list_ascii_of_string digits];
         match goal with
         | |- context [Ascii.eqb ?c "_"] =>
             change (Ascii.eqb c "_") with false; cbv iota
         end;
         match goal with
         | |- context [digit ?c] =>
             let v := eval vm_compute in (digit c) in
             change (digit c) with v; cbv iota
         end;
         cbn [Pos.of_uint Z.of_N];
         first [ apply IHd; now right
               | apply (digits_from_positive d _ true); now right ]).
  destruct H as [H | ->]; [now contradiction H | reflexivity].
Qed.

Lemma lstrip_plain (l : list ascii) : forallb plain l = true -> lstrip l = l.
Proof.
  destruct l as [| c r]; [reflexivity |]. simpl. unfold plain at 1.
  destruct (is_space c); [discriminate | reflexivity].
Qed.

Lemma strip_plain (l : list ascii) : forallb plain l = true -> strip l = l.
Proof.
  intro H. unfold strip. rewrite (lstrip_plain l H).
  rewrite lstrip_plain, rev_involutive; [reflexivity |].
  rewrite forallb_forall in *. intros c Hc. apply H. now apply in_rev.
Qed.

(** Reading back a rendered integer gives the integer. *)
Lemma int_of_str_of_int (z : Z) : int_of_str (str_of_int z) = Ok z.
Proof.
  destruct z as [| p | p]; [reflexivity | |].
  - unfold int_of_str, str_of_int. cbn [Z.to_int NilZero.string_of_int].
    pose proof (DecimalPos.Unsigned.to_uint_nonnil p) as Hn.
    pose proof (DecimalPos.Unsigned.of_to p) as Hv.
    pose proof (uint_chars_plain (Pos.to_uint p)) as Hp.
    pose proof (digits_from_zero (Pos.to_uint p) false (or_introl Hn)) as Hd.
    rewrite Hv in Hd.
    assert (E : NilZero.string_of_uint (Pos.to_uint p)
                = NilEmpty.string_of_uint (Pos.to_uint p))
      by (destruct (Pos.to_uint p); [now contradiction Hn | reflexivity ..]).
    rewrite E, (strip_plain _ Hp).
    destruct (Pos.to_uint p); (now contradiction Hn) || now rewrite Hd.
  - unfold int_of_str, str_of_int. cbn [Z.to_int NilZero.string_of_int].
    pose proof (DecimalPos.Unsigned.to_uint_nonnil p) as Hn.
    pose proof (DecimalPos.Unsigned.of_to p) as Hv.
    pose proof (uint_chars_plain (Pos.to_uint p)) as Hp.
    pose proof (digits_from_zero (Pos.to_uint p) false (or_introl Hn)) as Hd.
    rewrite Hv in Hd.
    assert (E : NilZero.string_of_uint (Pos.to_uint p)
                = NilEmpty.string_of_uint (Pos.to_uint p))
      by (destruct (Pos.to_uint p); [now contradiction Hn | reflexivity ..]).
    rewrite E. cbn [list_ascii_of_string].
    rewrite strip_plain by (cbn [forallb]; now rewrite Hp).
    now rewrite Hd.
Qed.

Lemma str_of_int_plain (z : Z) :
  forallb plain (list_ascii_of_string (str_of_int z)) = true.
Proof.
  assert (E : forall p,
             NilZero.string_of_uint (Pos.to_uint p)
             = NilEmpty.string_of_uint (Pos.to_uint p)).
  { intro p. pose proof (DecimalPos.Unsigned.to_uint_nonnil p) as Hn.
    destruct (Pos.to_uint p); [now contradiction Hn | reflexivity ..]. }
  destruct z as [| p | p]; [reflexivity | |];
    unfold str_of_int; cbn [Z.to_int NilZero.string_of_int]; rewrite E.
  - apply uint_chars_plain.
  - cbn [list_ascii_of_string forallb]. now rewrite uint_chars_plain.
Qed.

Lemma plain_not_separator (c : ascii) : plain c = true -> Ascii.eqb c "_" = false.
Proof.
  unfold plain. rewrite andb_true_iff, !negb_true_iff. tauto.
Qed.

Lemma split_plain (s : string) :
  forallb plain (list_ascii_of_string s) = true -> split "_" s = [s].
Proof.
  induction s as [| c s IH]; [reflexivity |].
  cbn [list_ascii_of_string forallb]. rewrite andb_true_iff. intros [Hc Hs].
  cbn [split]. now rewrite (plain_not_separator c Hc), (IH Hs).
Qed.

Lemma split_plain_sep (s r : string) :
  forallb plain (list_ascii_of_string s) = true ->
  split "_" (s ++ String "_" r) = s :: split "_" r.
Proof.
  induction s as [| c s IH]; [reflexivity |].
  cbn [list_ascii_of_string forallb]. rewrite andb_true_iff. intros [Hc Hs].
  cbn [append split]. now rewrite (plain_not_separator c Hc), (IH Hs).
Qed.

Lemma startswith_append (p s : string) : startswith (p ++ s) p = true.
Proof.
  unfold startswith. induction p as [| c p IH].
  - now destruct s.
  - cbn [append String.prefix]. destruct (ascii_dec c c); [exact IH | congruence].
Qed.

(** The token of a selection button passes the filter of the toggle
    handler, and the handler reads from it the warehouse and the page the
    button was built for. *)
Lemma select_token_fields (sel : list Z) (page : Z) (w : warehouse) :
  is_select (callback_data (select_button sel page w)) = true
  /\ int_field (callback_data (select_button sel page w)) 1
     = Ok (warehouse_id w)
  /\ int_field (callback_data (select_button sel page w)) 3 = Ok page.
Proof.
  cbn [callback_data select_button].
  set (a := str_of_int (warehouse_id w)). set (b := str_of_int page).
  assert (S : split "_" ("select_" ++ a ++ "_page_" ++ b)
              = ["select"; a; "page"; b]%string).
  { change ("select_" ++ a ++ "_page_" ++ b)%string
      with ("select" ++ String "_" (a ++ String "_" ("page" ++ String "_" b)))%string.
    rewrite split_plain_sep by reflexivity.
    rewrite split_plain_sep by apply str_of_int_plain.
    rewrite split_plain_sep by reflexivity.
    now rewrite split_plain by apply str_of_int_plain. }
  split; [apply startswith_append |].
  unfold int_field. rewrite S.
  split; [change (index ["select"; a; "page"; b]%string 1) with (Ok a)
         | change (index ["select"; a; "page"; b]%string 3) with (Ok b)];
    apply int_of_str_of_int.
Qed.

(** ** Toggling through the selection buttons *)

(** C8: for a registered user and a warehouse, two successive toggles
    through the token of the warehouse's selection button both succeed and
    leave the membership of every (warehouse, user) pair in the subscription
    table as it was, the other tables untouched. When the user had no
    subscription, the first toggle adds exactly one row and the second
    leaves the table as it was at the start. *)
Theorem toggle_twice_restores_membership (d : db) (sel : list Z) (page : Z)
    (w : warehouse) (tid uid : Z)
    (Huser : user_id_of d tid = Some uid) :
  let data := callback_data (select_button sel page w) in
  exists d1 d2 : db,
    outcome (warehouse_selected d data tid) = Ok d1
    /\ outcome (warehouse_selected d1 data tid) = Ok d2
    /\ (forall r, In r (user_warehouses d2) <-> In r (user_warehouses d))
    /\ users d2 = users d
    /\ warehouses d2 = warehouses d
    /\ (warehouses_of_user d uid = [] ->
        user_warehouses d1 = user_warehouses d ++ [(warehouse_id w, uid)]
        /\ warehouses_of_user d1 uid = [warehouse_id w]
        /\ user_warehouses d2 = user_warehouses d
        /\ warehouses_of_user d2 uid = []).
Proof.
  destruct (select_token_fields sel page w) as (_ & Hw & Hp).
  exact (toggle_twice_parsed d _ tid uid (warehouse_id w) page Huser Hw Hp).
Qed.

Lemma toggle_twice_restores_membership_witness :
  user_id_of db1 1001 = Some 1
  /\ exists d1 d2 : db,
       outcome (warehouse_selected db1 "select_3_page_0" 1001) = Ok d1
       /\ outcome (warehouse_selected d1 "select_3_page_0" 1001) = Ok d2
       /\ (forall r, In r (user_warehouses d2) <-> In r (user_warehouses db1))
       /\ users d2 = users db1
       /\ warehouses d2 = warehouses db1
       /\ (warehouses_of_user db1 1 = [] ->
           user_warehouses d1 = user_warehouses db1 ++ [(3, 1)]
           /\ warehouses_of_user d1 1 = [3]
           /\ user_warehouses d2 = user_warehouses db1
           /\ warehouses_of_user d2 1 = []).
Proof.
  split; [reflexivity |].
  exact (toggle_twice_restores_membership db1 [] 0 (Warehouse 3 "Склад 3" 0)
           1001 1 eq_refl).
Defined.

(** * Further properties of the program *)

(** ** The catalog under refreshes *)

Lemma upsert_ids_present (ws : list warehouse) (i : Z) (n : string) (t : Z) :
  In i (map warehouse_id ws) ->
  map warehouse_id (upsert_warehouse ws i n t) = map warehouse_id ws.
Proof.
  induction ws as [| w r IH]; simpl; [contradiction |].
  destruct (warehouse_id w =? i) eqn:E.
  - intros _. simpl. apply Z.eqb_eq in E. now rewrite E.
  - intros [H | H]; [apply Z.eqb_neq in E; contradiction |].
    simpl. now rewrite IH.
Qed.

Lemma upsert_ids_absent (ws : list warehouse) (i : Z) (n : string) (t : Z) :
  ~ In i (map warehouse_id ws) ->
  map warehouse_id (upsert_warehouse ws i n t) = map warehouse_id ws ++ [i].
Proof.
  induction ws as [| w r IH]; simpl; [reflexivity |].
  intro H. destruct (warehouse_id w =? i) eqn:E.
  - apply Z.eqb_eq in E. tauto.
  - simpl. rewrite IH; tauto.
Qed.

Lemma upsert_ids (ws : list warehouse) (i : Z) (n : string) (t : Z) :
  exists tail,
    map warehouse_id (upsert_warehouse ws i n t) = map warehouse_id ws ++ tail
    /\ In i (map warehouse_id (upsert_warehouse ws i n t)).
Proof.
  destruct (in_dec Z.eq_dec i (map warehouse_id ws)) as [H | H].
  - exists []. rewrite upsert_ids_present, app_nil_r by exact H. auto.
  - exists [i]. rewrite upsert_ids_absent by exact H.
    split; [reflexivity |]. apply in_app_iff. right. now left.
Qed.

Lemma upsert_NoDup (ws : list warehouse) (i : Z) (n : string) (t : Z) :
  NoDup (map warehouse_id ws) ->
  NoDup (map warehouse_id (upsert_warehouse ws i n t)).
Proof.
  intro H. destruct (in_dec Z.eq_dec i (map warehouse_id ws)) as [Hi | Hi].
  - now rewrite upsert_ids_present.
  - rewrite upsert_ids_absent by exact Hi.
    apply NoDup_app; [exact H | repeat constructor; intros [] |].
    intros x Hx [<- | []]. contradiction.
Qed.

(** X1: a refresh keeps the ids of the catalog distinct, so the catalog
    built by any sequence of refreshes of the empty table has one row per
    id. *)
Theorem refresh_keeps_ids_distinct (now : Z) (data : list warehouse_dict)
    (ws : list warehouse) (runs : list (Z * list warehouse_dict))
    (Hids : NoDup (map warehouse_id ws)) :
  NoDup (map warehouse_id (update_warehouses_in_db now data ws))
  /\ NoDup (map warehouse_id (refreshes runs)).
Proof.
  assert (G : forall n dt l, NoDup (map warehouse_id l) ->
                NoDup (map warehouse_id (update_warehouses_in_db n dt l))).
  { intros n dt. induction dt as [| e rest IH]; intros l Hl; simpl; [exact Hl |].
    destruct (contains marker (dict_name e)); simpl; apply IH;
      [exact Hl | now apply upsert_NoDup]. }
  split; [now apply G |].
  unfold refreshes.
  assert (F : forall start, NoDup (map warehouse_id start) ->
                NoDup (map warehouse_id
                         (fold_left
                            (fun l r => update_warehouses_in_db (fst r) (snd r) l)
                            runs start))).
  { induction runs as [| r rest IH]; intros start Hs; simpl; [exact Hs |].
    apply IH. now apply G. }
  apply F. constructor.
Qed.

Lemma refresh_keeps_ids_distinct_witness :
  NoDup (map warehouse_id catalog7)
  /\ NoDup (map warehouse_id
              (update_warehouses_in_db 9
                 [WarehouseDict 7 "Тула"; WarehouseDict 8 "Казань"] catalog7)).
Proof.
  assert (H : NoDup (map warehouse_id catalog7)).
  { repeat (constructor; [simpl; intuition discriminate |]). constructor. }
  split; [exact H |].
  exact (proj1 (refresh_keeps_ids_distinct 9
                  [WarehouseDict 7 "Тула"; WarehouseDict 8 "Казань"]
                  catalog7 [] H)).
Defined.

Lemma upsert_keeps_ids (ws : list warehouse) (i : Z) (n : string) (t j : Z) :
  In j (map warehouse_id ws) ->
  In j (map warehouse_id (upsert_warehouse ws i n t)).
Proof.
  intro H. destruct (upsert_ids ws i n t) as (tail & E & _).
  rewrite E. apply in_app_iff. now left.
Qed.

Lemma upsert_keeps_other_rows (ws : list warehouse) (i : Z) (n : string)
    (t : Z) (w : warehouse) :
  In w ws -> warehouse_id w <> i -> In w (upsert_warehouse ws i n t).
Proof.
  induction ws as [| v r IH]; simpl; [contradiction |].
  intros [-> | H] Hne.
  - apply Z.eqb_neq in Hne. rewrite Hne. now left.
  - destruct (warehouse_id v =? i); right; auto.
Qed.

Lemma refresh_keeps_ids (now : Z) (data : list warehouse_dict)
    (ws : list warehouse) (j : Z) :
  In j (map warehouse_id ws) ->
  In j (map warehouse_id (update_warehouses_in_db now data ws)).
Proof.
  revert ws. induction data as [| e rest IH]; intros ws H; [exact H |].
  simpl. destruct (contains marker (dict_name e)); simpl; apply IH;
    [exact H | now apply upsert_keeps_ids].
Qed.

Lemma last_name_entry (data : list warehouse_dict) (i : Z) (n : string) :
  last_name data i = Some n ->
  exists e, In e data /\ contains marker (dict_name e) = false
            /\ ID e = i /\ dict_name e = n.
Proof.
  induction data as [| x rest IH]; [discriminate |]. cbn [last_name].
  destruct (last_name rest i) as [m |].
  - intro H. destruct (IH H) as (e & He & R). exists e. split; [now right | exact R].
  - destruct (contains marker (dict_name x)) eqn:C; [discriminate |].
    destruct (ID x =? i) eqn:E; [| discriminate].
    simpl. intro H. injection H as <-. apply Z.eqb_eq in E.
    exists x. split; [now left | auto].
Qed.

Lemma last_name_none (e : warehouse_dict) (rest : list warehouse_dict) (i : Z) :
  last_name (e :: rest) i = None ->
  last_name rest i = None
  /\ (contains marker (dict_name e) = false -> ID e <> i).
Proof.
  cbn [last_name]. destruct (last_name rest i); [discriminate |].
  intro H. split; [reflexivity |]. intros C E.
  rewrite C, E, Z.eqb_refl in H. discriminate.
Qed.

Lemma refresh_keeps_unnamed_rows (now : Z) (data : list warehouse_dict)
    (ws : list warehouse) (w : warehouse) :
  In w ws ->
  last_name data (warehouse_id w) = None ->
  In w (update_warehouses_in_db now data ws).
Proof.
  revert ws. induction data as [| e rest IH]; intros ws Hw L; [exact Hw |].
  apply last_name_none in L. destruct L as (L & Hne).
  simpl. destruct (contains marker (dict_name e)) eqn:C; simpl.
  - now apply IH.
  - apply IH; [| exact L]. apply upsert_keeps_other_rows; [exact Hw |].
    intro E. now apply (Hne eq_refl).
Qed.

Lemma refresh_ids_origin (now : Z) (data : list warehouse_dict)
    (ws : list warehouse) (i : Z) :
  In i (map warehouse_id (update_warehouses_in_db now data ws)) ->
  In i (map warehouse_id ws) \/ exists n : string, last_name data i = Some n.
Proof.
  revert ws. induction data as [| e rest IH]; intros ws H; [now left |].
  simpl in H. cbn [last_name].
  destruct (contains marker (dict_name e)) eqn:C; simpl in H |- *.
  - destruct (IH ws H) as [K | (n & K)]; [now left |].
    right. rewrite K. eauto.
  - destruct (IH _ H) as [K | (n & K)]; [| right; rewrite K; eauto].
    destruct (last_name rest i) as [m |]; [right; eauto |].
    apply in_map_iff in K. destruct K as (v & <- & K).
    apply upsert_warehouse_rows in K. destruct K as [K | ->].
    + left. now apply in_map.
    + right. simpl. rewrite Z.eqb_refl. eauto.
Qed.

(** X2: a refresh deletes nothing. A warehouse of the catalog keeps its id
    in the catalog, and keeps its row as it is when the directory data give
    its id in no entry without the marker; every id of the catalog after the
    refresh was an id before it or is the id of such an entry. *)
Theorem refresh_deletes_nothing (now : Z) (data : list warehouse_dict)
    (ws : list warehouse) (w : warehouse) (Hw : In w ws) :
  In (warehouse_id w) (map warehouse_id (update_warehouses_in_db now data ws))
  /\ (last_name data (warehouse_id w) = None ->
      In w (update_warehouses_in_db now data ws))
  /\ forall i : Z,
       In i (map warehouse_id (update_warehouses_in_db now data ws)) ->
       In i (map warehouse_id ws)
       \/ exists e : warehouse_dict,
            In e data /\ contains marker (dict_name e) = false /\ ID e = i.
Proof.
  split; [apply refresh_keeps_ids; now apply in_map |].
  split; [now apply refresh_keeps_unnamed_rows |].
  intros i Hi. destruct (refresh_ids_origin now data ws i Hi) as [K | (n & K)];
    [now left | right].
  apply last_name_entry in K. destruct K as (e & He & Hc & Hid & _).
  exists e. auto.
Qed.

Lemma refresh_deletes_nothing_witness :
  In (Warehouse 3 "Склад 3" 0) catalog7
  /\ In 3 (map warehouse_id
             (update_warehouses_in_db 9
                [WarehouseDict 7 "Тула"; WarehouseDict 8 "СЦ Казань"] catalog7))
  /\ In (Warehouse 3 "Склад 3" 0)
        (update_warehouses_in_db 9
           [WarehouseDict 7 "Тула"; WarehouseDict 8 "СЦ Казань"] catalog7).
Proof.
  assert (Hw : In (Warehouse 3 "Склад 3" 0) catalog7)
    by (right; right; left; reflexivity).
  split; [exact Hw |].
  destruct (refresh_deletes_nothing 9
              [WarehouseDict 7 "Тула"; WarehouseDict 8 "СЦ Казань"]
              catalog7 _ Hw) as (A & B & _).
  split; [exact A | exact (B eq_refl)].
Defined.

Lemma refresh_covers (now : Z) (data : list warehouse_dict)
    (ws : list warehouse) (e : warehouse_dict) :
  In e data ->
  contains marker (dict_name e) = false ->
  In (ID e) (map warehouse_id (update_warehouses_in_db now data ws)).
Proof.
  revert ws. induction data as [| x rest IH]; intros ws Hin Hc; [contradiction |].
  simpl. destruct Hin as [-> | Hin].
  - rewrite Hc. simpl. apply refresh_keeps_ids.
    now destruct (upsert_ids ws (ID e) (dict_name e) now) as (_ & _ & H).
  - destruct (contains marker (dict_name x)); simpl; now apply IH.
Qed.

Lemma refresh_ids_covered (now : Z) (data : list warehouse_dict)
    (ws : list warehouse) :
  (forall e, In e data -> contains marker (dict_name e) = false ->
             In (ID e) (map warehouse_id ws)) ->
  map warehouse_id (update_warehouses_in_db now data ws) = map warehouse_id ws.
Proof.
  revert ws. induction data as [| x rest IH]; intros ws H; [reflexivity |].
  simpl. destruct (contains marker (dict_name x)) eqn:C; simpl.
  - apply IH. intros e He. apply H. now right.
  - assert (P : In (ID x) (map warehouse_id ws)) by (apply H; [now left | exact C]).
    rewrite IH; rewrite upsert_ids_present by exact P; [reflexivity |].
    intros e He. apply H. now right.
Qed.

Lemma upsert_row_of_id (ws : list warehouse) (i : Z) (n : string) (t : Z)
    (w : warehouse) :
  NoDup (map warehouse_id ws) ->
  In w (upsert_warehouse ws i n t) ->
  warehouse_id w = i ->
  w = Warehouse i n t.
Proof.
  induction ws as [| v r IH]; simpl; intros Hnd Hin Hid.
  - destruct Hin as [<- | []]. reflexivity.
  - inversion Hnd as [| x l Hnot Hnd']; subst.
    destruct (warehouse_id v =? warehouse_id w) eqn:E.
    + destruct Hin as [<- | Hin]; [reflexivity |].
      apply Z.eqb_eq in E. exfalso. apply Hnot. rewrite E. now apply in_map.
    + destruct Hin as [<- | Hin]; [now rewrite Z.eqb_refl in E |].
      now apply IH.
Qed.

(** A row of the catalog after a refresh carries the last unmarked name the
    directory gave its id, or is a row of the catalog before it. *)
Lemma refresh_rows_last_name (now : Z) (data : list warehouse_dict) :
  forall ws : list warehouse,
    NoDup (map warehouse_id ws) ->
    forall w, In w (update_warehouses_in_db now data ws) ->
      match last_name data (warehouse_id w) with
      | Some n => w = Warehouse (warehouse_id w) n now
      | None => In w ws
      end.
Proof.
  induction data as [| e rest IH]; intros ws Hnd w Hin; [exact Hin |].
  simpl in Hin. cbn [last_name].
  destruct (contains marker (dict_name e)) eqn:C; simpl in Hin |- *.
  - specialize (IH ws Hnd w Hin).
    now destruct (last_name rest (warehouse_id w)).
  - specialize (IH _ (upsert_NoDup ws (ID e) (dict_name e) now Hnd) w Hin).
    destruct (last_name rest (warehouse_id w)); [exact IH |].
    destruct (ID e =? warehouse_id w) eqn:E.
    + apply Z.eqb_eq in E. rewrite <- E.
      apply (upsert_row_of_id ws (ID e) (dict_name e) now w Hnd IH).
      now symmetry.
    + apply upsert_warehouse_rows in IH. destruct IH as [H | ->]; [exact H |].
      simpl in E. now rewrite Z.eqb_refl in E.
Qed.

Lemma row_of_distinct_id (ws : list warehouse) (x y : warehouse) :
  NoDup (map warehouse_id ws) ->
  In x ws -> In y ws -> warehouse_id x = warehouse_id y -> x = y.
Proof.
  induction ws as [| v r IH]; simpl; intros Hnd Hx Hy E; [contradiction |].
  inversion Hnd as [| i l Hnot Hnd']; subst.
  destruct Hx as [-> | Hx], Hy as [-> | Hy]; auto.
  - exfalso. apply Hnot. rewrite E. now apply in_map.
  - exfalso. apply Hnot. rewrite <- E. now apply in_map.
Qed.

Lemma rows_determined_by_id (a b : list warehouse) :
  map warehouse_id a = map warehouse_id b ->
  (forall x y, In x a -> In y b -> warehouse_id x = warehouse_id y -> x = y) ->
  a = b.
Proof.
  revert b. induction a as [| x a IH]; intros [| y b] Hids Hrows;
    try discriminate; [reflexivity |].
  simpl in Hids. injection Hids as Hxy Hids.
  f_equal.
  - apply Hrows; simpl; auto.
  - apply IH; [exact Hids |]. intros u v Hu Hv. apply Hrows; simpl; auto.
Qed.

(** X3: the refresh is idempotent: with distinct ids in the catalog, a
    second refresh with the same directory data and clock reading leaves the
    catalog exactly as the first one made it: no duplicate row, no changed
    name. *)
Theorem refresh_idempotent (now : Z) (data : list warehouse_dict)
    (ws : list warehouse) (Hids : NoDup (map warehouse_id ws)) :
  update_warehouses_in_db now data (update_warehouses_in_db now data ws)
  = update_warehouses_in_db now data ws.
Proof.
  set (once := update_warehouses_in_db now data ws).
  assert (Hnd : NoDup (map warehouse_id once))
    by exact (proj1 (refresh_keeps_ids_distinct now data ws [] Hids)).
  apply rows_determined_by_id.
  - apply refresh_ids_covered. intros e He Hc.
    now apply refresh_covers.
  - intros x y Hx Hy Hxy.
    pose proof (refresh_rows_last_name now data once Hnd x Hx) as Px.
    pose proof (refresh_rows_last_name now data ws Hids y Hy) as Py.
    rewrite <- Hxy in Py.
    destruct (last_name data (warehouse_id x)) as [n |].
    + rewrite Px, Py, Hxy. reflexivity.
    + now apply (row_of_distinct_id once).
Qed.

Lemma refresh_idempotent_witness :
  NoDup (map warehouse_id catalog7)
  /\ update_warehouses_in_db 9
       [WarehouseDict 7 "Тула"; WarehouseDict 8 "СЦ Казань";
        WarehouseDict 9 "Клин"; WarehouseDict 9 "Клин-2"]
       (update_warehouses_in_db 9
          [WarehouseDict 7 "Тула"; WarehouseDict 8 "СЦ Казань";
           WarehouseDict 9 "Клин"; WarehouseDict 9 "Клин-2"] catalog7)
     = update_warehouses_in_db 9
         [WarehouseDict 7 "Тула"; WarehouseDict 8 "СЦ Казань";
          WarehouseDict 9 "Клин"; WarehouseDict 9 "Клин-2"] catalog7.
Proof.
  assert (H : NoDup (map warehouse_id catalog7)).
  { repeat (constructor; [simpl; intuition discriminate |]). constructor. }
  split; [exact H |].
  exact (refresh_idempotent 9 _ catalog7 H).
Defined.

Lemma last_name_of_distinct (data : list warehouse_dict) (e : warehouse_dict) :
  NoDup (map ID data) ->
  In e data ->
  contains marker (dict_name e) = false ->
  last_name data (ID e) = Some (dict_name e).
Proof.
  induction data as [| x rest IH]; intros Hnd Hin Hc; [contradiction |].
  inversion Hnd as [| i l Hnot Hnd']; subst. cbn [last_name].
  destruct Hin as [-> | Hin].
  - destruct (last_name rest (ID e)) as [m |] eqn:L.
    + apply last_name_entry in L. destruct L as (y & Hy & _ & Hid & _).
      exfalso. apply Hnot. rewrite <- Hid. now apply in_map.
    + now rewrite Hc, Z.eqb_refl.
  - now rewrite (IH Hnd' Hin Hc).
Qed.

(** X4: when the ids of the directory data are distinct and so are those of
    the catalog, the refresh stores every entry without the marker under its
    id with its name and the clock reading, and an entry with the marker
    whose id the catalog did not know leaves no row. *)
Theorem refresh_stores_unmarked_entries (now : Z) (data : list warehouse_dict)
    (ws : list warehouse) (e : warehouse_dict)
    (Hdata : NoDup (map ID data))
    (Hids : NoDup (map warehouse_id ws))
    (He : In e data) :
  (contains marker (dict_name e) = false ->
   In (Warehouse (ID e) (dict_name e) now)
      (update_warehouses_in_db now data ws))
  /\ (contains marker (dict_name e) = true ->
      ~ In (ID e) (map warehouse_id ws) ->
      ~ In (ID e) (map warehouse_id (update_warehouses_in_db now data ws))).
Proof.
  split.
  - intro Hc.
    pose proof (refresh_covers now data ws e He Hc) as Hin.
    apply in_map_iff in Hin. destruct Hin as (w & Hw & Hin).
    pose proof (refresh_rows_last_name now data ws Hids w Hin) as R.
    rewrite Hw, (last_name_of_distinct data e Hdata He Hc) in R.
    now rewrite <- R.
  - intros Hc Hnew Hin.
    apply in_map_iff in Hin. destruct Hin as (w & Hw & Hin).
    pose proof (refresh_rows_last_name now data ws Hids w Hin) as R.
    rewrite Hw in R.
    destruct (last_name data (ID e)) as [n |] eqn:L.
    + apply last_name_entry in L. destruct L as (y & Hy & Cy & Hid & _).
      assert (y = e).
      { clear - Hdata Hy He Hid. induction data as [| x rest IH]; [contradiction |].
        inversion Hdata as [| i l Hnot Hnd']; subst.
        destruct Hy as [-> | Hy], He as [-> | He]; auto.
        - exfalso. apply Hnot. rewrite Hid. now apply in_map.
        - exfalso. apply Hnot. rewrite <- Hid. now apply in_map. }
      subst y. congruence.
    + apply Hnew. rewrite <- Hw. now apply in_map.
Qed.

Lemma refresh_stores_unmarked_entries_witness :
  NoDup (map ID [WarehouseDict 8 "СЦ Казань"; WarehouseDict 9 "Клин"])
  /\ NoDup (map warehouse_id catalog7)
  /\ In (WarehouseDict 9 "Клин")
        [WarehouseDict 8 "СЦ Казань"; WarehouseDict 9 "Клин"]
  /\ In (Warehouse 9 "Клин" 5)
        (update_warehouses_in_db 5
           [WarehouseDict 8 "СЦ Казань"; WarehouseDict 9 "Клин"] catalog7).
Proof.
  assert (H1 : NoDup (map ID [WarehouseDict 8 "СЦ Казань"; WarehouseDict 9 "Клин"])).
  { repeat (constructor; [simpl; intuition discriminate |]). constructor. }
  assert (H2 : NoDup (map warehouse_id catalog7)).
  { repeat (constructor; [simpl; intuition discriminate |]). constructor. }
  assert (H3 : In (WarehouseDict 9 "Клин")
                  [WarehouseDict 8 "СЦ Казань"; WarehouseDict 9 "Клин"])
    by (simpl; auto).
  split; [exact H1 |]. split; [exact H2 |]. split; [exact H3 |].
  exact (proj1 (refresh_stores_unmarked_entries 5 _ catalog7 _ H1 H2 H3) eq_refl).
Defined.

(** ** The directory request *)

(** X5: whatever status the directory endpoint answers, [update_warehouses]
    returns it without raising and touches only the catalog: the catalog is
    refreshed for status 200 and left as it was for any other. The message
    is "OK" for every status outside the six of [ERROR_MESSAGES], not only
    for 200, so that a status such as 503 reports "OK" although nothing was
    refreshed. *)
Theorem update_warehouses_outcome (directory : string -> directory_response)
    (now : Z) (c : context) (key : string) (status : Z)
    (json : list warehouse_dict)
    (Hanswer : directory key = Directory status json) :
  let r := update_warehouses directory now key c in
  log r = [GetWarehouses key]
  /\ returned r = Ok (status, dict_get ERROR_MESSAGES status "OK")
  /\ state (after r) = state c
  /\ users (store (after r)) = users (store c)
  /\ user_warehouses (store (after r)) = user_warehouses (store c)
  /\ warehouses (store (after r))
     = (if status =? 200
        then update_warehouses_in_db now json (warehouses (store c))
        else warehouses (store c))
  /\ (dict_get ERROR_MESSAGES status "OK" = "OK"%string
      <-> ~ In status [400; 401; 403; 404; 429; 500]).
Proof.
  cbv zeta. unfold update_warehouses. rewrite Hanswer.
  repeat split;
    try (unfold h_bind, act, get_store, put_store, h_ret; simpl;
         destruct (status =? 200); reflexivity).
  - intros H Hin. revert H. simpl in Hin.
    destruct Hin as [<- | [<- | [<- | [<- | [<- | [<- | []]]]]]];
      vm_compute; discriminate.
  - intro H. unfold ERROR_MESSAGES. cbn [dict_get].
    repeat match goal with
           | |- context [?k =? status] =>
               destruct (Z.eqb_spec k status);
               [exfalso; apply H; simpl; tauto |]
           end.
    reflexivity.
Qed.

Lemma update_warehouses_outcome_witness :
  (fun _ : string => Directory 503 []) "key-a"%string = Directory 503 []
  /\ returned (update_warehouses (fun _ => Directory 503 []) 9 "key-a"
                 (Context db1 None))
     = Ok (503, "OK"%string)
  /\ warehouses (store (after (update_warehouses (fun _ => Directory 503 []) 9
                                 "key-a" (Context db1 None))))
     = catalog7.
Proof.
  split; [reflexivity |].
  pose proof (update_warehouses_outcome (fun _ => Directory 503 []) 9
                (Context db1 None) "key-a" 503 [] eq_refl) as H.
  cbv zeta in H. destruct H as (_ & R & _ & _ & _ & W & _).
  split; [exact R | exact W].
Defined.

(** ** The callback filters *)

Lemma startswith_inv (data p : string) :
  startswith data p = true -> exists rest, data = (p ++ rest)%string.
Proof.
  unfold startswith. revert data. induction p as [| c p IH]; intros data H.
  - now exists data.
  - destruct data as [| b data]; [discriminate |]. cbn [String.prefix] in H.
    destruct (ascii_dec c b) as [-> | _]; [| discriminate].
    destruct (IH data H) as (rest & ->). now exists rest.
Qed.

Lemma length_filter_sum {A} (p : A -> bool) (l : list A) :
  List.length (filter p l) = list_sum (map (fun x => Nat.b2n (p x)) l).
Proof.
  induction l as [| x l IH]; [reflexivity |].
  simpl. destruct (p x); simpl; now rewrite IH.
Qed.

(** X6: the filters of the nine callback handlers exclude one another on
    every string: no callback data is accepted by two handlers, so the order
    in which the handlers are registered decides nothing. *)
Theorem callback_filters_exclusive (data : string) :
  (List.length (filter (fun f => f data) callback_filters) <= 1)%nat.
Proof.
  rewrite length_filter_sum. unfold callback_filters. cbn [map list_sum].
  assert (P : forall p, startswith data p = true ->
                exists rest, data = (p ++ rest)%string)
    by (intro p; apply startswith_inv).
  assert (Q : forall s, String.eqb data s = true -> data = s)
    by (intro s; apply String.eqb_eq).
  destruct (is_select data) eqn:E1;
    [destruct (P _ E1) as (rest & ->); clear; cbn; lia |].
  destruct (is_page data) eqn:E2;
    [destruct (P _ E2) as (rest & ->); clear; cbn; lia |].
  destruct (is_done data) eqn:E3;
    [rewrite (Q _ E3); clear; cbn; lia |].
  destruct (is_settings data) eqn:E4;
    [rewrite (Q _ E4); clear; cbn; lia |].
  destruct (is_edit_warehouses data) eqn:E5;
    [rewrite (Q _ E5); clear; cbn; lia |].
  destruct (is_edit_polling_frequency data) eqn:E6;
    [rewrite (Q _ E6); clear; cbn; lia |].
  destruct (is_set_polling data) eqn:E7;
    [destruct (P _ E7) as (rest & ->); clear; cbn; lia |].
  destruct (is_edit_threshold data) eqn:E8;
    [rewrite (Q _ E8); clear; cbn; lia |].
  destruct (is_edit_api_key data); cbn; lia.
Qed.

(** ** Page navigation *)

Lemma page_token_field (q : Z) :
  is_page ("page_" ++ str_of_int q) = true
  /\ int_field ("page_" ++ str_of_int q) 1 = Ok q.
Proof.
  split; [apply startswith_append |].
  unfold int_field.
  change ("page_" ++ str_of_int q)%string
    with ("page" ++ String "_" (str_of_int q))%string.
  rewrite split_plain_sep by reflexivity.
  rewrite split_plain by apply str_of_int_plain.
  change (index ["page"%string; str_of_int q] 1) with (Ok (str_of_int q)).
  apply int_of_str_of_int.
Qed.

(** X7: every button of a navigation row is the save button or a page
    button whose token [change_page_callback] accepts and reads back as the
    neighbouring page: for the button "<<" it edits the keyboard into the one
    of page - 1 and for the button ">>" into the one of page + 1, both drawn
    with the subscriptions the store holds for the sender. *)
Theorem navigation_buttons_turn_pages (d : db) (tid page end_index len : Z)
    (b : InlineKeyboardButton)
    (Hb : In b (navigation_row page end_index len)) :
  b = Button "Сохранить" "done"
  \/ exists q : Z,
       ((text b = "<<"%string /\ q = page - 1 /\ 0 < page)
        \/ (text b = ">>"%string /\ q = page + 1 /\ end_index < len))
       /\ is_page (callback_data b) = true
       /\ change_page_callback d (callback_data b) tid
          = Run [EditReplyMarkup
                   (generate_warehouse_keyboard d (warehouses_of_telegram d tid) q)]
                (Ok tt).
Proof.
  assert (T : forall q,
             change_page_callback d ("page_" ++ str_of_int q) tid
             = Run [EditReplyMarkup
                      (generate_warehouse_keyboard d
                         (warehouses_of_telegram d tid) q)] (Ok tt)).
  { intro q. unfold change_page_callback.
    rewrite (proj2 (page_token_field q)), bind_lift_ok. reflexivity. }
  unfold navigation_row in Hb. rewrite !in_app_iff in Hb.
  destruct Hb as [Hb | [Hb | Hb]].
  - destruct (0 <? page) eqn:P; [| contradiction]. apply Z.ltb_lt in P.
    destruct Hb as [<- | []]. right. exists (page - 1).
    split; [left; auto |]. split; [apply page_token_field | apply T].
  - destruct Hb as [<- | []]. now left.
  - destruct (end_index <? len) eqn:P; [| contradiction]. apply Z.ltb_lt in P.
    destruct Hb as [<- | []]. right. exists (page + 1).
    split; [right; auto |]. split; [apply page_token_field | apply T].
Qed.

Lemma navigation_buttons_turn_pages_witness :
  In (Button ">>" "page_1") (navigation_row 0 6 7)
  /\ change_page_callback db2 "page_1" 1001
     = Run [EditReplyMarkup (generate_warehouse_keyboard db2 [3] 1)] (Ok tt).
Proof.
  assert (H : In (Button ">>" "page_1") (navigation_row 0 6 7))
    by (simpl; auto).
  split; [exact H |].
  destruct (navigation_buttons_turn_pages db2 1001 0 6 7 _ H)
    as [E | (q & [(T & _) | (_ & -> & _)] & _ & R)].
  - discriminate E.
  - discriminate T.
  - exact R.
Defined.

(** ** Callback data without a valid number *)

Lemma split_nonempty (sep : ascii) (s : string) : split sep s <> [].
Proof.
  destruct s as [| c s]; simpl; [discriminate |].
  destruct (Ascii.eqb c sep); [discriminate |].
  destruct (split sep s); discriminate.
Qed.

Lemma index_last_exists {A} (l : list A) :
  l <> [] -> exists x, index l (-1) = Ok x.
Proof.
  intro H. unfold index.
  assert (L : (0 < List.length l)%nat) by (destruct l; [congruence | simpl; lia]).
  change (-1 <? 0) with true. cbv iota.
  replace ((-1 + Z.of_nat (List.length l) <? 0)
           || (Z.of_nat (List.length l) <=? -1 + Z.of_nat (List.length l)))
    with false
    by (symmetry; apply orb_false_iff; split;
        [apply Z.ltb_ge | apply Z.leb_gt]; lia).
  destruct (nth_error l (Z.to_nat (-1 + Z.of_nat (List.length l)))) eqn:E;
    [eauto |].
  apply nth_error_None in E. lia.
Qed.

Lemma index_second_exists {A} (x : A) (l : list A) :
  l <> [] -> exists y, index (x :: l) 1 = Ok y.
Proof.
  destruct l as [| y l]; [congruence |]. intros _. exists y.
  unfold index. change (1 <? 0) with false. cbv iota.
  replace ((1 <? 0) || (Z.of_nat (List.length (x :: y :: l)) <=? 1))
    with false
    by (symmetry; apply orb_false_iff; simpl List.length; split;
        [reflexivity | apply Z.leb_gt; lia]).
  reflexivity.
Qed.

Lemma int_of_str_raises (s : string) (e : exn) :
  int_of_str s = Raise e -> e = ValueError.
Proof.
  unfold int_of_str.
  destruct (match strip (list_ascii_of_string s) with
            | [] => digits 0 false (strip (list_ascii_of_string s))
            | c :: r => _
            end); [discriminate | congruence].
Qed.

(** X8: data that passes the filter of the page handler or of the frequency
    handler always has the field the handler reads, so these handlers either
    do their work or raise ValueError, and a select token either gives both
    numbers or makes the toggle handler raise ValueError or, when the page
    field is missing, IndexError; in every such failure the handler has
    neither replied nor written. *)
Theorem accepted_data_without_number (d : db) (data : string) (tid : Z) :
  (is_page data = true ->
   change_page_callback d data tid = Run [] (Raise ValueError)
   \/ exists q, int_field data 1 = Ok q)
  /\ (is_set_polling data = true ->
      process_new_polling_frequency d data tid = Run [] (Raise ValueError)
      \/ exists f, int_field data (-1) = Ok f)
  /\ (is_select data = true ->
      warehouse_selected d data tid = Run [] (Raise ValueError)
      \/ warehouse_selected d data tid = Run [] (Raise IndexError)
      \/ exists w p, int_field data 1 = Ok w /\ int_field data 3 = Ok p).
Proof.
  assert (F : forall i, (exists s, index (split "_" data) i = Ok s) ->
                int_field data i = Raise ValueError
                \/ exists z, int_field data i = Ok z).
  { intros i (s & Hs). unfold int_field. rewrite Hs.
    destruct (int_of_str s) as [z | e] eqn:E; [right; eauto |].
    left. now rewrite (int_of_str_raises s e E). }
  split; [| split]; intro H; apply startswith_inv in H; destruct H as (rest & Hd).
  - assert (I : exists s, index (split "_" data) 1 = Ok s).
    { rewrite Hd.
      change ("page_" ++ rest)%string with ("page" ++ String "_" rest)%string.
      rewrite split_plain_sep by reflexivity.
      apply index_second_exists, split_nonempty. }
    destruct (F 1 I) as [E | E]; [left | now right].
    unfold change_page_callback. now rewrite E.
  - destruct (F (-1) (index_last_exists _ (split_nonempty "_" data)))
      as [E | E]; [left | now right].
    unfold process_new_polling_frequency. now rewrite E.
  - assert (I : exists s, index (split "_" data) 1 = Ok s).
    { rewrite Hd.
      change ("select_" ++ rest)%string with ("select" ++ String "_" rest)%string.
      rewrite split_plain_sep by reflexivity.
      apply index_second_exists, split_nonempty. }
    destruct (F 1 I) as [E | (w & E)].
    { left. unfold warehouse_selected. now rewrite E. }
    destruct (int_field data 3) as [p | e] eqn:E3; [right; right; eauto |].
    assert (e = ValueError \/ e = IndexError).
    { unfold int_field in E3.
      destruct (index (split "_" data) 3) as [s |] eqn:E4.
      - left. now apply (int_of_str_raises s).
      - right. unfold index in E4.
        destruct ((_ <? 0) || _); [congruence |].
        destruct (nth_error _ _); congruence. }
    unfold warehouse_selected. rewrite E, bind_lift_ok, E3.
    destruct H as [-> | ->]; [left | right; left]; reflexivity.
Qed.

(** Data of the three kinds that the handlers refuse. *)
Example refused_data :
  (is_page "page_", is_set_polling "set_polling_abc", is_select "select_5")
  = (true, true, true)
  /\ change_page_callback db2 "page_" 1001 = Run [] (Raise ValueError)
  /\ process_new_polling_frequency db2 "set_polling_abc" 1001
     = Run [] (Raise ValueError)
  /\ warehouse_selected db2 "select_5" 1001 = Run [] (Raise IndexError).
Proof. repeat split; reflexivity. Qed.

(** ** Which warehouses a user can select *)

(** The selection buttons of a page, in order: the buttons of the whole
    slice when its length is even, of all but its last warehouse when odd. *)
Lemma keyboard_selection_buttons (d : db) (sel : list Z) (page : Z) :
  let sl := paginated_warehouses (warehouses d) page in
  List.concat (generate_warehouse_keyboard d sel page)
  = map (select_button sel page)
        (if Nat.even (List.length sl) then sl else removelast sl)
    ++ navigation_row page (page * WAREHOUSES_PER_PAGE + WAREHOUSES_PER_PAGE)
         (Z.of_nat (List.length (warehouses d))).
Proof.
  intro sl. rewrite generate_warehouse_keyboard_rows. fold sl.
  rewrite concat_app. cbn [List.concat]. rewrite app_nil_r. f_equal.
  destruct (pair_rows_shape (map (select_button sel page) sl)) as (_ & O & E).
  rewrite length_map in O, E.
  destruct (Nat.even (List.length sl)) eqn:P.
  - now apply E.
  - rewrite O by (unfold Nat.odd; now rewrite P).
    destruct (exists_last (l := sl)) as (init & w & Hs).
    { intro Z0. rewrite Z0 in P. discriminate. }
    rewrite Hs, map_app. simpl map. now rewrite !removelast_last.
Qed.

(** The slice of a page that is not negative: six warehouses from position
    [6 * page] on, or what is left of the catalog. *)
Lemma page_slice (ws : list warehouse) (p : nat) :
  paginated_warehouses ws (Z.of_nat p) = firstn 6 (skipn (6 * p) ws).
Proof.
  unfold paginated_warehouses, slice, clamp, WAREHOUSES_PER_PAGE.
  set (n := List.length ws).
  replace (Z.of_nat p * 6 <? 0) with false by (symmetry; apply Z.ltb_ge; lia).
  replace (Z.of_nat p * 6 + 6 <? 0) with false
    by (symmetry; apply Z.ltb_ge; lia).
  destruct (Nat.le_gt_cases n (6 * p)) as [Hbig | Hsmall].
  - replace (Z.to_nat (Z.min (Z.of_nat p * 6) (Z.of_nat n))) with n by lia.
    rewrite !skipn_all2 by (fold n; lia). now rewrite !firstn_nil.
  - replace (Z.to_nat (Z.min (Z.of_nat p * 6) (Z.of_nat n))) with (6 * p)%nat
      by lia.
    destruct (Nat.le_gt_cases (6 * p + 6) n) as [Hfull | Hlast].
    + f_equal. lia.
    + replace (Z.to_nat (Z.min (Z.of_nat p * 6 + 6) (Z.of_nat n)
                         - Z.min (Z.of_nat p * 6) (Z.of_nat n)))
        with (n - 6 * p)%nat by lia.
      rewrite !firstn_all2; [reflexivity | |];
        rewrite length_skipn; fold n; lia.
Qed.

Lemma In_firstn_more {A} (l : list A) (k k' : nat) (x : A) :
  In x (firstn k l) -> (k <= k')%nat -> In x (firstn k' l).
Proof.
  intros H Hk.
  replace k with (Nat.min k k') in H by lia.
  rewrite <- firstn_firstn in H.
  rewrite <- (firstn_skipn k (firstn k' l)). apply in_or_app. now left.
Qed.

Lemma In_firstn_skipn {A} (l : list A) (a j : nat) (x : A) :
  In x (firstn j (skipn a l)) -> In x (firstn (a + j) l).
Proof.
  rewrite firstn_skipn_comm. intro H.
  rewrite <- (firstn_skipn a (firstn (a + j) l)). apply in_or_app. now right.
Qed.

(** X9: every warehouse of the catalog has its selection button on the page
    of its position (six per page), except the last warehouse of a catalog
    of odd size. *)
Theorem warehouse_has_button_on_its_page (d : db) (sel : list Z) (i : nat)
    (w : warehouse)
    (Hw : nth_error (warehouses d) i = Some w)
    (Hlast : ~ (S i = List.length (warehouses d)
                /\ Nat.odd (List.length (warehouses d)) = true)) :
  In (select_button sel (Z.of_nat (i / 6)) w)
     (List.concat (generate_warehouse_keyboard d sel (Z.of_nat (i / 6)))).
Proof.
  set (ws := warehouses d) in *. set (n := List.length ws) in *.
  set (p := (i / 6)%nat).
  pose proof (Nat.div_mod_eq i 6) as Hi. fold p in Hi.
  pose proof (Nat.mod_upper_bound i 6 ltac:(lia)) as Hk.
  set (k := (i mod 6)%nat) in *.
  assert (Hn : (i < n)%nat) by (apply nth_error_Some; unfold ws in *; congruence).
  rewrite keyboard_selection_buttons. cbv zeta. fold ws.
  rewrite page_slice. set (sl := firstn 6 (skipn (6 * p) ws)).
  assert (Hsl : nth_error sl k = Some w).
  { unfold sl. rewrite nth_error_firstn.
    replace (k <? 6)%nat with true by (symmetry; apply Nat.ltb_lt; exact Hk).
    rewrite nth_error_skipn. now rewrite <- Hi. }
  assert (Hm : List.length sl = Nat.min 6 (n - 6 * p)).
  { unfold sl. now rewrite length_firstn, length_skipn. }
  apply in_or_app. left. apply in_map.
  destruct (Nat.even (List.length sl)) eqn:P.
  - now apply nth_error_In with k.
  - rewrite removelast_firstn_len.
    apply nth_error_In with k. rewrite nth_error_firstn.
    replace (k <? Nat.pred (List.length sl))%nat with true; [exact Hsl |].
    symmetry. apply Nat.ltb_lt.
    assert (Hodd : Nat.odd (List.length sl) = true)
      by (unfold Nat.odd; now rewrite P).
    destruct (Nat.eq_dec (List.length sl) 6) as [E6 | N6];
      [rewrite E6 in Hodd; discriminate |].
    assert (Hlen : List.length sl = (n - 6 * p)%nat) by lia.
    destruct (Nat.eq_dec (S k) (List.length sl)) as [E | N]; [| lia].
    exfalso. apply Hlast. split; [lia |].
    replace n with (List.length sl + 2 * (3 * p))%nat by lia.
    now rewrite Nat.odd_add_mul_2.
Qed.

Lemma warehouse_has_button_on_its_page_witness :
  nth_error (warehouses db1) 4 = Some (Warehouse 5 "Склад 5" 0)
  /\ ~ (5%nat = List.length (warehouses db1)
        /\ Nat.odd (List.length (warehouses db1)) = true)
  /\ In (select_button [] 0 (Warehouse 5 "Склад 5" 0))
        (List.concat (generate_warehouse_keyboard db1 [] 0)).
Proof.
  assert (H : ~ (5%nat = List.length (warehouses db1)
                 /\ Nat.odd (List.length (warehouses db1)) = true))
    by (simpl; intros [E _]; discriminate).
  split; [reflexivity |]. split; [exact H |].
  exact (warehouse_has_button_on_its_page db1 [] 4 _ eq_refl H).
Defined.

Lemma slice_reach (n : nat) (p : Z) :
  let a := Z.to_nat (clamp (Z.of_nat n) (p * 6)) in
  let c := Z.to_nat (clamp (Z.of_nat n) (p * 6 + 6) - clamp (Z.of_nat n) (p * 6)) in
  (a + Nat.min c (n - a) < n)%nat
  \/ Nat.min c (n - a) = 0%nat
  \/ exists q : nat, a = (2 * q)%nat.
Proof.
  cbv zeta. unfold clamp.
  destruct (p * 6 <? 0) eqn:S1; destruct (p * 6 + 6 <? 0) eqn:S2;
    try apply Z.ltb_lt in S1; try apply Z.ltb_ge in S1;
    try apply Z.ltb_lt in S2; try apply Z.ltb_ge in S2.
  - destruct n as [| n']; [right; left; lia | left; lia].
  - right. left. lia.
  - lia.
  - destruct (Z_le_gt_dec (Z.of_nat n) (p * 6)) as [Hbig | Hsmall].
    + right. left. lia.
    + right. right. exists (3 * Z.to_nat p)%nat. lia.
Qed.

(** In a catalog of odd size no page draws a button for the last
    warehouse. *)
Lemma drawn_before_last (ws : list warehouse) (page : Z) (x : warehouse) :
  Nat.odd (List.length ws) = true ->
  let sl := paginated_warehouses ws page in
  In x (if Nat.even (List.length sl) then sl else removelast sl) ->
  In x (removelast ws).
Proof.
  intros Hodd sl. rewrite (removelast_firstn_len ws).
  set (n := List.length ws) in *.
  unfold sl, paginated_warehouses, slice, WAREHOUSES_PER_PAGE. fold n.
  pose proof (slice_reach n page) as R. cbv zeta in R.
  set (a := Z.to_nat (clamp (Z.of_nat n) (page * 6))) in *.
  set (c := Z.to_nat (clamp (Z.of_nat n) (page * 6 + 6)
                      - clamp (Z.of_nat n) (page * 6))) in *.
  set (s := firstn c (skipn a ws)).
  remember (List.length s) as m eqn:Hm0.
  assert (Hm : m = Nat.min c (n - a))
    by (rewrite Hm0; unfold s; now rewrite length_firstn, length_skipn).
  assert (Hs : s = firstn m (skipn a ws)).
  { unfold s. rewrite Hm.
    destruct (Nat.le_gt_cases c (n - a)) as [L | G].
    - now replace (Nat.min c (n - a)) with c by lia.
    - replace (Nat.min c (n - a)) with (n - a)%nat by lia.
      rewrite !firstn_all2; [reflexivity | |]; rewrite length_skipn; fold n; lia. }
  destruct (Nat.even m) eqn:P; intro Hin.
  - destruct (Nat.eq_dec m 0) as [Z0 | NZ].
    { rewrite Hs, Z0 in Hin. contradiction. }
    rewrite Hs in Hin. apply In_firstn_skipn in Hin.
    apply In_firstn_more with (1 := Hin).
    destruct R as [R | [R | (q & R)]]; [lia | lia |].
    destruct (Nat.le_gt_cases n (a + m)) as [Hreach | ]; [| lia].
    exfalso.
    assert (E : n = (m + 2 * q)%nat) by lia.
    rewrite E, Nat.odd_add_mul_2 in Hodd. unfold Nat.odd in Hodd.
    rewrite P in Hodd. discriminate.
  - assert (NZ : m <> 0%nat) by (intro Z0; rewrite Z0 in P; discriminate).
    rewrite removelast_firstn_len, <- Hm0 in Hin.
    rewrite Hs, firstn_firstn in Hin. apply In_firstn_skipn in Hin.
    apply In_firstn_more with (1 := Hin). lia.
Qed.

(** X10: in a catalog of odd size with distinct ids, no page, whatever its
    number, carries a button that the toggle handler accepts and reads as
    the last warehouse: through the keyboards this warehouse can be neither
    subscribed nor unsubscribed. *)
Theorem last_of_odd_catalog_has_no_button (d : db) (sel : list Z) (page : Z)
    (init : list warehouse) (w : warehouse) (b : InlineKeyboardButton)
    (Hids : NoDup (map warehouse_id (warehouses d)))
    (Hlast : warehouses d = init ++ [w])
    (Hodd : Nat.odd (List.length (warehouses d)) = true)
    (Hb : In b (List.concat (generate_warehouse_keyboard d sel page)))
    (Hsel : is_select (callback_data b) = true) :
  int_field (callback_data b) 1 <> Ok (warehouse_id w).
Proof.
  rewrite keyboard_selection_buttons in Hb. cbv zeta in Hb.
  apply in_app_iff in Hb. destruct Hb as [Hb | Hb].
  - apply in_map_iff in Hb. destruct Hb as (v & <- & Hv).
    destruct (select_token_fields sel page v) as (_ & F & _). rewrite F.
    intro E. injection E as E.
    apply (drawn_before_last (warehouses d) page v Hodd) in Hv.
    rewrite Hlast, removelast_last in Hv.
    rewrite Hlast, map_app in Hids. cbn [map] in Hids.
    apply NoDup_remove_2 in Hids. apply Hids.
    rewrite app_nil_r, <- E. now apply in_map.
  - apply startswith_inv in Hsel. destruct Hsel as (rest & Hd).
    exfalso. now apply (navigation_row_data _ _ _ b rest Hb).
Qed.

Lemma last_of_odd_catalog_has_no_button_witness :
  NoDup (map warehouse_id (warehouses db1))
  /\ warehouses db1 = removelast catalog7 ++ [Warehouse 7 "Склад 7" 0]
  /\ Nat.odd (List.length (warehouses db1)) = true
  /\ In (Button "Склад 5" "select_5_page_0")
        (List.concat (generate_warehouse_keyboard db1 [] 0))
  /\ is_select "select_5_page_0" = true
  /\ int_field "select_5_page_0" 1 <> Ok 7.
Proof.
  assert (H1 : NoDup (map warehouse_id (warehouses db1))).
  { repeat (constructor; [simpl; intuition discriminate |]). constructor. }
  assert (H4 : In (Button "Склад 5" "select_5_page_0")
                  (List.concat (generate_warehouse_keyboard db1 [] 0)))
    by (simpl; auto 10).
  split; [exact H1 |]. split; [reflexivity |]. split; [reflexivity |].
  split; [exact H4 |]. split; [reflexivity |].
  exact (last_of_odd_catalog_has_no_button db1 [] 0 (removelast catalog7)
           (Warehouse 7 "Склад 7" 0) _ H1 eq_refl eq_refl H4 eq_refl).
Defined.

(** ** One toggle *)

(** X11: for a registered user, one toggle succeeds and flips the
    membership of exactly the pair (warehouse, user) it names: every other
    row of the subscription table, of this user or of another, stays, and so
    do the users and the catalog. *)
Theorem toggle_flips_only_its_pair (d : db) (data : string)
    (tid uid w p : Z)
    (Huser : user_id_of d tid = Some uid)
    (Hw : int_field data 1 = Ok w)
    (Hp : int_field data 3 = Ok p) :
  exists d1 : db,
    outcome (warehouse_selected d data tid) = Ok d1
    /\ users d1 = users d
    /\ warehouses d1 = warehouses d
    /\ (In (w, uid) (user_warehouses d1) <-> ~ In (w, uid) (user_warehouses d))
    /\ forall r, r <> (w, uid) ->
         (In r (user_warehouses d1) <-> In r (user_warehouses d)).
Proof.
  rewrite (warehouse_selected_outcome d data tid w p Hw Hp).
  unfold warehouses_of_telegram. rewrite Huser.
  destruct (mem w (warehouses_of_user d uid)) eqn:M.
  - apply mem_In, warehouses_of_user_In in M.
    unfold delete_subscription. rewrite Huser.
    eexists. split; [reflexivity |]. cbn [users warehouses user_warehouses].
    split; [reflexivity |]. split; [reflexivity |]. split.
    + rewrite filter_In. cbn [fst snd]. rewrite !Z.eqb_refl. simpl.
      split; [intros [_ F]; discriminate | intro N; contradiction].
    + intros [a b] Hr. rewrite filter_In. cbn [fst snd].
      split; [tauto |]. intro H. split; [exact H |].
      apply negb_true_iff, andb_false_iff.
      destruct (Z.eqb_spec b uid) as [-> | N]; [| now left].
      destruct (Z.eqb_spec a w) as [-> | N]; [congruence | now right].
  - assert (NI : ~ In (w, uid) (user_warehouses d)).
    { rewrite <- warehouses_of_user_In, <- mem_In. congruence. }
    assert (S0 : subscribed (user_warehouses d) w uid = false)
      by (apply not_true_iff_false; now rewrite subscribed_In).
    unfold insert_subscription. rewrite Huser, S0.
    eexists. split; [reflexivity |]. cbn [users warehouses user_warehouses].
    split; [reflexivity |]. split; [reflexivity |]. split.
    + rewrite in_app_iff. simpl. tauto.
    + intros r Hr. rewrite in_app_iff. simpl.
      split; [intros [H | [H | []]]; [exact H | congruence] | tauto].
Qed.

Lemma toggle_flips_only_its_pair_witness :
  user_id_of db2 1001 = Some 1
  /\ int_field "select_4_page_0" 1 = Ok 4
  /\ int_field "select_4_page_0" 3 = Ok 0
  /\ exists d1 : db,
       outcome (warehouse_selected db2 "select_4_page_0" 1001) = Ok d1
       /\ users d1 = users db2
       /\ warehouses d1 = warehouses db2
       /\ (In (4, 1) (user_warehouses d1) <-> ~ In (4, 1) (user_warehouses db2))
       /\ forall r, r <> (4, 1) ->
            (In r (user_warehouses d1) <-> In r (user_warehouses db2)).
Proof.
  split; [reflexivity |]. split; [reflexivity |]. split; [reflexivity |].
  exact (toggle_flips_only_its_pair db2 "select_4_page_0" 1001 1 4 0
           eq_refl eq_refl eq_refl).
Defined.

Lemma keyboard_depends_on_membership (d d' : db) (l l' : list Z) (page : Z) :
  warehouses d = warehouses d' ->
  (forall x, In x l <-> In x l') ->
  generate_warehouse_keyboard d l page = generate_warehouse_keyboard d' l' page.
Proof.
  intros Hw Hl. rewrite !generate_warehouse_keyboard_rows, Hw.
  f_equal. f_equal. apply map_ext. intro v. unfold select_button.
  assert (E : mem (warehouse_id v) l = mem (warehouse_id v) l').
  { destruct (mem (warehouse_id v) l) eqn:A, (mem (warehouse_id v) l') eqn:B;
      try reflexivity.
    - apply mem_In, Hl, mem_In in A. congruence.
    - apply mem_In, Hl, mem_In in B. congruence. }
  now rewrite E.
Qed.

Lemma remove_In (w x : Z) (l : list Z) :
  NoDup l -> (In x (remove w l) <-> In x l /\ x <> w).
Proof.
  induction l as [| y r IH]; simpl; intro Hnd; [tauto |].
  inversion Hnd as [| z l' Hnot Hnd']; subst.
  destruct (Z.eqb_spec y w) as [-> | N].
  - split; [intro H; split; [now right | intros ->; contradiction] |].
    intros [[<- | H] Hx]; [congruence | exact H].
  - simpl. rewrite (IH Hnd'). split.
    + intros [<- | [H Hx]]; [split; [now left | exact N] | split; [now right | exact Hx]].
    + intros [[<- | H] Hx]; [now left | right; split; assumption].
Qed.

(** X12: when the subscriptions the store holds for a registered user have
    no duplicate, the keyboard that a toggle sends is the keyboard of the
    same page drawn from the store as the toggle left it: the check marks
    agree with what was stored, and turning to the same page afterwards
    shows the same keyboard. *)
Theorem toggle_keyboard_matches_store (d : db) (data : string)
    (tid uid w p : Z)
    (Huser : user_id_of d tid = Some uid)
    (Hw : int_field data 1 = Ok w)
    (Hp : int_field data 3 = Ok p)
    (Hsubs : NoDup (warehouses_of_user d uid)) :
  exists (d1 : db) (answer : string),
    warehouse_selected d data tid
    = Run [CallbackAnswer answer;
           EditReplyMarkup
             (generate_warehouse_keyboard d1 (warehouses_of_telegram d1 tid) p)]
          (Ok d1)
    /\ change_page_callback d1 ("page_" ++ str_of_int p) tid
       = Run [EditReplyMarkup
                (generate_warehouse_keyboard d1 (warehouses_of_telegram d1 tid) p)]
             (Ok tt).
Proof.
  assert (T : forall d1,
             change_page_callback d1 ("page_" ++ str_of_int p) tid
             = Run [EditReplyMarkup
                      (generate_warehouse_keyboard d1
                         (warehouses_of_telegram d1 tid) p)] (Ok tt)).
  { intro d1. unfold change_page_callback.
    rewrite (proj2 (page_token_field p)), bind_lift_ok. reflexivity. }
  unfold warehouse_selected. rewrite Hw, bind_lift_ok, Hp, bind_lift_ok.
  unfold warehouses_of_telegram at 1 2 3. rewrite Huser.
  destruct (mem w (warehouses_of_user d uid)) eqn:M.
  - set (d1 := delete_subscription d tid w).
    assert (E1 : d1 = Db (users d) (warehouses d)
                         (filter (fun r => negb ((snd r =? uid) && (fst r =? w)))
                                 (user_warehouses d)))
      by (unfold d1, delete_subscription; now rewrite Huser).
    exists d1. eexists. split; [| apply T].
    rewrite !bind_emit. cbn [trace outcome ret].
    match goal with
    | |- Run [_; EditReplyMarkup ?k] _ = Run [_; EditReplyMarkup ?k'] _ =>
        assert (K : k = k'); [| rewrite K; reflexivity]
    end.
    apply keyboard_depends_on_membership; [reflexivity |].
    intro x. rewrite (remove_In w x _ Hsubs).
    unfold warehouses_of_telegram.
    replace (user_id_of d1 tid) with (Some uid) by (rewrite E1; now symmetry).
    rewrite !warehouses_of_user_In, E1. cbn [user_warehouses].
    rewrite filter_In. cbn [fst snd]. rewrite Z.eqb_refl. simpl.
    destruct (Z.eqb_spec x w) as [-> | N]; simpl;
      [split; [tauto | intros [_ F]; discriminate] | tauto].
  - assert (S0 : subscribed (user_warehouses d) w uid = false).
    { apply not_true_iff_false. rewrite subscribed_In.
      rewrite <- warehouses_of_user_In, <- mem_In. congruence. }
    unfold insert_subscription. rewrite Huser, S0.
    set (d1 := Db (users d) (warehouses d) (user_warehouses d ++ [(w, uid)])).
    exists d1. eexists. split; [| apply T].
    rewrite bind_emit, bind_lift_ok, bind_emit. cbn [trace outcome ret].
    match goal with
    | |- Run [_; EditReplyMarkup ?k] _ = Run [_; EditReplyMarkup ?k'] _ =>
        assert (K : k = k'); [| rewrite K; reflexivity]
    end.
    f_equal.
    unfold warehouses_of_telegram.
    replace (user_id_of d1 tid) with (Some uid) by (now symmetry).
    unfold warehouses_of_user, d1. cbn [user_warehouses].
    rewrite filter_app, map_app. simpl. now rewrite Z.eqb_refl.
Qed.

Lemma toggle_keyboard_matches_store_witness :
  user_id_of db2 1001 = Some 1
  /\ int_field "select_3_page_0" 1 = Ok 3
  /\ int_field "select_3_page_0" 3 = Ok 0
  /\ NoDup (warehouses_of_user db2 1)
  /\ exists (d1 : db) (answer : string),
       warehouse_selected db2 "select_3_page_0" 1001
       = Run [CallbackAnswer answer;
              EditReplyMarkup
                (generate_warehouse_keyboard d1 (warehouses_of_telegram d1 1001) 0)]
             (Ok d1)
       /\ change_page_callback d1 ("page_" ++ str_of_int 0) 1001
          = Run [EditReplyMarkup
                   (generate_warehouse_keyboard d1
                      (warehouses_of_telegram d1 1001) 0)]
                (Ok tt).
Proof.
  assert (H : NoDup (warehouses_of_user db2 1))
    by (simpl; constructor; [intros [] | constructor]).
  split; [reflexivity |]. split; [reflexivity |]. split; [reflexivity |].
  split; [exact H |].
  exact (toggle_keyboard_matches_store db2 "select_3_page_0" 1001 1 3 0
           eq_refl eq_refl eq_refl H).
Defined.

(** ** More on the check *)

(** X13: raising the threshold never loses a notification: every entry
    that qualifies for a threshold qualifies for every greater one, so the
    entries collected for the smaller threshold are among those collected
    for the greater. *)
Theorem greater_threshold_keeps_entries (T T' : Q)
    (json : list coefficient_dict) (HT : (T <= T')%Q) :
  (forall v, qualifies v T = true -> qualifies v T' = true)
  /\ exists good good',
       collect (iter (DataList json)) T [] = Ok good
       /\ collect (iter (DataList json)) T' [] = Ok good'
       /\ incl good good'.
Proof.
  assert (M : forall v, qualifies v T = true -> qualifies v T' = true).
  { intros v H. apply qualifies_true in H. destruct H as [L U].
    apply qualifies_true. split; [exact L |]. now apply Qle_trans with T. }
  split; [exact M |].
  rewrite !collect_of_list. cbn [app].
  eexists. eexists. split; [reflexivity |]. split; [reflexivity |].
  intros c Hc. apply filter_In in Hc. destruct Hc as [Hin Hq].
  apply filter_In. split; [exact Hin | now apply M].
Qed.

Lemma greater_threshold_keeps_entries_witness :
  (5 <= 6)%Q
  /\ exists good good',
       collect (iter (DataList (map entry [PyInt 0; PyInt 6]))) 5 [] = Ok good
       /\ collect (iter (DataList (map entry [PyInt 0; PyInt 6]))) 6 [] = Ok good'
       /\ incl good good'.
Proof.
  assert (H : (5 <= 6)%Q) by (unfold Qle; simpl; lia).
  split; [exact H |].
  exact (proj2 (greater_threshold_keeps_entries 5 6
                  (map entry [PyInt 0; PyInt 6]) H)).
Defined.

(** X14: when the user has subscriptions and the coefficients endpoint does
    not answer with status 200, the check makes its request and ends in an
    exception, TypeError for an answer with another status and ClientError
    for no answer, without sending a message. *)
Theorem check_without_200_raises (upstream : string -> list Z -> response)
    (d : db) (uid : Z) (key : string) (T : Q)
    (Hsub : warehouses_of_user d uid <> [])
    (Hfail : forall json,
        upstream key (warehouses_of_user d uid) <> Response 200 json) :
  exists e : exn,
    check_coefficients_for_user upstream d uid key T
    = Run [SelectUserWarehouses uid;
           GetCoefficients key (warehouses_of_user d uid)]
          (Raise e)
    /\ match upstream key (warehouses_of_user d uid) with
       | Response _ _ => e = TypeError
       | ConnectionFailed => e = ClientError
       end.
Proof.
  unfold check_coefficients_for_user.
  destruct (warehouses_of_user d uid) as [| w ws] eqn:E; [congruence |].
  unfold get_coefficients.
  destruct (upstream key (w :: ws)) as [status json |] eqn:U.
  - exists TypeError. split; [| reflexivity].
    destruct (Z.eqb_spec status 200) as [-> | N];
      [now contradiction (Hfail json) |].
    rewrite bind_assoc, !bind_emit, bind_ret, collect_of_error, bind_lift_raise.
    reflexivity.
  - exists ClientError. split; [| reflexivity].
    rewrite bind_assoc, !bind_emit, bind_raise. reflexivity.
Qed.

Lemma check_without_200_raises_witness :
  warehouses_of_user db2 1 <> []
  /\ (forall json, upstream_down "key-a" (warehouses_of_user db2 1)
                   <> Response 200 json)
  /\ check_coefficients_for_user upstream_down db2 1 "key-a" 5
     = Run [SelectUserWarehouses 1; GetCoefficients "key-a" [3]]
           (Raise ClientError).
Proof.
  assert (H1 : warehouses_of_user db2 1 <> []) by discriminate.
  assert (H2 : forall json, upstream_down "key-a" (warehouses_of_user db2 1)
                            <> Response 200 json) by discriminate.
  split; [exact H1 |]. split; [exact H2 |].
  destruct (check_without_200_raises upstream_down db2 1 "key-a" 5 H1 H2)
    as (e & R & He).
  simpl in He. rewrite He in R. exact R.
Defined.

(** ** More on the scheduler *)

(** X15: a user with a non-zero frequency [f] is due at tick 0, whatever
    [f] is, and due-ness repeats with period [f]; for a positive [f] the
    user is due at none of the [f - 1] ticks that follow a due tick. *)
Theorem due_is_periodic (t k j : Z) (u : user)
    (Hf : polling_frequency u <> 0) :
  due 0 u = Ok true
  /\ due (t + k * polling_frequency u) u = due t u
  /\ (due t u = Ok true -> 0 < j < polling_frequency u ->
      due (t + j) u = Ok false).
Proof.
  rewrite !due_nonzero by exact Hf.
  split; [now rewrite Z.mod_0_l by exact Hf |].
  split; [now rewrite Z.mod_add by exact Hf |].
  intros H Hj. injection H as H. apply Z.eqb_eq in H.
  f_equal. apply Z.eqb_neq.
  rewrite Z.add_mod, H, Z.add_0_l, Z.mod_mod by exact Hf.
  rewrite Z.mod_small; lia.
Qed.

Lemma due_is_periodic_witness :
  polling_frequency bob <> 0
  /\ due 0 bob = Ok true
  /\ due (7 + 2 * polling_frequency bob) bob = due 7 bob
  /\ (due 30 bob = Ok true -> 0 < 14 < polling_frequency bob ->
      due (30 + 14) bob = Ok false).
Proof.
  assert (H : polling_frequency bob <> 0) by (simpl; lia).
  split; [exact H |].
  destruct (due_is_periodic 7 2 14 bob H) as (A & B & _).
  destruct (due_is_periodic 30 2 14 bob H) as (_ & _ & C).
  split; [exact A |]. split; [exact B | exact C].
Defined.

(** X16: a stored user with frequency 0 ends every tick in an exception:
    the loop over the users cannot pass that user, whose due computation
    divides by zero, so the tick never completes and the scheduler loop ends
    at that tick for all users. *)
Theorem zero_frequency_ends_the_loop (upstream : string -> list Z -> response)
    (fuel : nat) (store : Z -> db) (loop_num : Z) (u : user)
    (Hu : In u (users (store loop_num)))
    (Hzero : polling_frequency u = 0) :
  exists e : exn,
    outcome (poll_users upstream (store loop_num) loop_num
               (users (store loop_num))) = Raise e
    /\ outcome (polling_loop upstream (S fuel) store loop_num) = Raise e.
Proof.
  assert (G : forall d t us, In u us ->
                exists e, outcome (poll_users upstream d t us) = Raise e).
  { intros d t us. induction us as [| v rest IH]; intro Hin; [contradiction |].
    rewrite poll_users_cons.
    destruct Hin as [-> | Hin].
    - unfold due, mod_. rewrite Hzero. simpl. eauto.
    - destruct (due t v) as [[|] | e]; [| now apply IH | simpl; eauto].
      rewrite outcome_bind.
      destruct (outcome (check_coefficients_for_user upstream d (user_id v)
                           (api_key v) (notification_threshold v)));
        [now apply IH | eauto]. }
  destruct (G (store loop_num) loop_num _ Hu) as (e & He).
  exists e. split; [exact He |].
  now rewrite (polling_loop_stops_at_failure upstream fuel store loop_num e He).
Qed.

Lemma zero_frequency_ends_the_loop_witness :
  In (User 1 1001 "key-a" 0 5) (users (Db [bob; User 1 1001 "key-a" 0 5] [] []))
  /\ polling_frequency (User 1 1001 "key-a" 0 5) = 0
  /\ exists e : exn,
       outcome (poll_users upstream_closed
                  (Db [bob; User 1 1001 "key-a" 0 5] [] []) 3
                  [bob; User 1 1001 "key-a" 0 5]) = Raise e
       /\ outcome (polling_loop upstream_closed 2
                     (fun _ => Db [bob; User 1 1001 "key-a" 0 5] [] []) 3)
          = Raise e.
Proof.
  assert (H : In (User 1 1001 "key-a" 0 5)
                 (users (Db [bob; User 1 1001 "key-a" 0 5] [] [])))
    by (simpl; auto).
  split; [exact H |]. split; [reflexivity |].
  exact (zero_frequency_ends_the_loop upstream_closed 1
           (fun _ => Db [bob; User 1 1001 "key-a" 0 5] [] []) 3 _ H eq_refl).
Defined.

(** ** The settings handlers and the rows they touch *)

Lemma set_polling_token_field (z : Z) :
  is_set_polling ("set_polling_" ++ str_of_int z) = true
  /\ int_field ("set_polling_" ++ str_of_int z) (-1) = Ok z.
Proof.
  split; [apply startswith_append |].
  unfold int_field.
  change ("set_polling_" ++ str_of_int z)%string
    with ("set" ++ String "_" ("polling" ++ String "_" (str_of_int z)))%string.
  rewrite !split_plain_sep by reflexivity.
  rewrite split_plain by apply str_of_int_plain.
  change (index ["set"%string; "polling"%string; str_of_int z] (-1))
    with (Ok (str_of_int z)).
  apply int_of_str_of_int.
Qed.

(** X18: the frequency handler stores whatever integer its token renders,
    zero and negative numbers included, as long as the column can hold it
    (the bounds below are those of the narrowest integer type of the
    server), and changes nothing but the frequency of the rows of the
    sender: every other row of [users], the other columns of the sender's
    rows, the catalog and the subscriptions are as they were. *)
Theorem frequency_update_touches_only_the_sender (d : db) (tid z : Z)
    (Hfits : -32768 <= z <= 32767) :
  is_set_polling ("set_polling_" ++ str_of_int z) = true
  /\ exists d' : db,
       process_new_polling_frequency d ("set_polling_" ++ str_of_int z) tid
       = Run [MessageAnswer "🔄 Частота опроса обновлена!" None;
              MessageAnswer "🏠 Главное меню:"
                (Some [[Button "⚙️ Настройки:" "settings"]])]
             (Ok d')
       /\ warehouses d' = warehouses d
       /\ user_warehouses d' = user_warehouses d
       /\ forall u' : user,
            In u' (users d')
            <-> exists u : user,
                  In u (users d)
                  /\ u' = (if telegram_id u =? tid
                           then User (user_id u) (telegram_id u) (api_key u) z
                                     (notification_threshold u)
                           else u).
Proof.
  destruct (set_polling_token_field z) as (F & P).
  split; [exact F |].
  exists (set_polling_frequency d z tid).
  split; [exact (process_new_polling_frequency_ok d _ tid z P) |].
  split; [reflexivity |]. split; [reflexivity |].
  apply set_polling_frequency_rows.
Qed.

Lemma frequency_update_touches_only_the_sender_witness :
  -32768 <= -3 <= 32767
  /\ exists d' : db,
       outcome (process_new_polling_frequency db2 "set_polling_-3" 1002) = Ok d'
       /\ In (User 2 1002 "key-b" (-3) 10) (users d')
       /\ In alice (users d')
       /\ ~ In bob (users d').
Proof.
  assert (H : -32768 <= -3 <= 32767) by lia.
  split; [exact H |].
  destruct (frequency_update_touches_only_the_sender db2 1002 (-3) H)
    as (_ & d' & R & _ & _ & Rows).
  exists d'. split; [exact (f_equal outcome R) |].
  split; [apply Rows; exists bob; split; [simpl; auto | reflexivity] |].
  split; [apply Rows; exists alice; split; [simpl; auto | reflexivity] |].
  intro K. apply Rows in K. destruct K as (u & [<- | [<- | []]] & E);
    discriminate E.
Defined.


Section SettingsProperties.

Variable float_of_str : string -> option pyfloat.



(** X21: the threshold handler raises exactly on a message without text,
    and then with TypeError before any reply; on every text it returns,
    having replied, and leaves the conversation state as it found it. *)
Theorem threshold_handler_raises_only_without_text (c : context) (tid : Z)
    (s : string) :
  process_new_notification_threshold float_of_str c None tid
  = Run [] (Raise TypeError)
  /\ exists (c' : context) (replies : list event),
       process_new_notification_threshold float_of_str c (Some s) tid
       = Run replies (Ok c')
       /\ replies <> []
       /\ state c' = state c.
Proof.
  split; [reflexivity |].
  unfold process_new_notification_threshold, float_.
  destruct (float_of_str s) as [f |];
    [| eexists; eexists; split; [reflexivity | split; [discriminate | reflexivity]]].
  rewrite bind_lift_ok. unfold set_notification_threshold.
  destruct (existsb _ _);
    [| eexists; eexists; split; [reflexivity | split; [discriminate | reflexivity]]].
  destruct (threshold_in_bounds f);
    eexists; eexists; (split; [reflexivity | split; [discriminate | reflexivity]]).
Qed.

End SettingsProperties.



(** ** Registration and the API key *)

(** How a handler built with [h_bind] runs, one step at a time. *)

Lemma h_bind_step {A B} (m : handler A) (f : A -> handler B)
    (c c1 c2 : context) (l1 l2 l : list action) (a : A) (r : result B) :
  m c = Reaction c1 l1 (Ok a) ->
  f a c1 = Reaction c2 l2 r ->
  l = l1 ++ l2 ->
  h_bind m f c = Reaction c2 l r.
Proof.
  intros H1 H2 ->. unfold h_bind. rewrite H1. cbn [returned after log].
  now rewrite H2.
Qed.

Lemma h_bind_stop {A B} (m : handler A) (f : A -> handler B)
    (c c1 : context) (l1 : list action) (e : exn) :
  m c = Reaction c1 l1 (Raise e) ->
  h_bind m f c = Reaction c1 l1 (Raise e).
Proof. intro H. unfold h_bind. now rewrite H. Qed.

Section OnboardingProperties.

Variable ping : string -> option Z.
Variable directory : string -> directory_response.
Variable now : Z.
Variable next_user_id : db -> Z.
Variable default_polling_frequency : Z.
Variable default_notification_threshold : Q.

Lemma insert_user_registers (d : db) (tid : Z) (key : string) :
  user_id_of (insert_user next_user_id default_polling_frequency
      default_notification_threshold d tid key) tid <> None.
Proof.
  unfold insert_user, user_id_of.
  destruct (existsb (fun u => telegram_id u =? tid) (users d)) eqn:E.
  - apply existsb_exists in E. destruct E as (u & Hu & Ht).
    cbn [users set_api_key].
    destruct (find (fun u0 => telegram_id u0 =? tid)
                (map (fun u0 => if telegram_id u0 =? tid
                                then User (user_id u0) (telegram_id u0) key
                                       (polling_frequency u0)
                                       (notification_threshold u0)
                                else u0) (users d))) eqn:F;
      [discriminate |].
    exfalso.
    assert (C := find_none _ _ F
                   (if telegram_id u =? tid
                    then User (user_id u) (telegram_id u) key
                           (polling_frequency u) (notification_threshold u)
                    else u)
                   ltac:(apply in_map_iff; now exists u)).
    rewrite Ht in C. simpl in C. congruence.
  - cbn [users].
    destruct (find (fun u => telegram_id u =? tid)
                (users d
                 ++ [User (next_user_id d) tid key default_polling_frequency
                          default_notification_threshold])) eqn:F;
      [discriminate |].
    exfalso.
    assert (C := find_none _ _ F
                   (User (next_user_id d) tid key default_polling_frequency
                         default_notification_threshold)
                   ltac:(apply in_app_iff; right; now left)).
    simpl in C. now rewrite Z.eqb_refl in C.
Qed.


(** X22: a key that the ping endpoint answers with a status other than 200
    leaves everything as it was: no user row is written, the conversation
    stays in the state it was in, no directory request is made, and the
    sender is told the key is invalid. *)
Theorem process_api_key_refused (c : context) (text : string) (tid status : Z)
    (Hping : ping text = Some status)
    (Hstatus : status <> 200) :
  process_api_key ping directory now next_user_id default_polling_frequency
    default_notification_threshold text tid c
  = Reaction c
      [Reply (MessageAnswer "Проверка ключа, ожидайте" None);
       Ping text;
       Reply (MessageAnswer
                "❌ API ключ недействителен. Пожалуйста, проверьте его и введите заново."
                None)]
      (Ok tt).
Proof.
  assert (V : validate_api_key ping text c
              = Reaction c [Ping text] (Ok (status =? 200))).
  { unfold validate_api_key.
    eapply h_bind_step; [reflexivity | | reflexivity].
    now rewrite Hping. }
  apply Z.eqb_neq in Hstatus. rewrite Hstatus in V.
  unfold process_api_key.
  eapply h_bind_step; [reflexivity | | reflexivity].
  eapply h_bind_step; [exact V | | reflexivity].
  reflexivity.
Qed.

Lemma validate_api_key_answer (c : context) (key : string) (status : Z) :
  ping key = Some status ->
  validate_api_key ping key c = Reaction c [Ping key] (Ok (status =? 200)).
Proof.
  intro H. unfold validate_api_key.
  eapply h_bind_step; [reflexivity | | reflexivity].
  now rewrite H.
Qed.



(** X24: when the key check succeeds and the directory endpoint then gives
    no answer, the handler ends in ClientError after the sender's row was
    written: the sender is registered while the conversation is still in
    the state it was in, and no keyboard was shown. *)
Theorem process_api_key_interrupted (c : context) (text : string) (tid : Z)
    (Hping : ping text = Some 200)
    (Hdir : directory text = DirectoryUnreachable) :
  let r := process_api_key ping directory now next_user_id
             default_polling_frequency default_notification_threshold
             text tid c in
  returned r = Raise ClientError
  /\ state (after r) = state c
  /\ store (after r) = insert_user next_user_id default_polling_frequency
      default_notification_threshold (store c) tid text
  /\ user_id_of (store (after r)) tid <> None
  /\ log r
     = [Reply (MessageAnswer "Проверка ключа, ожидайте" None);
        Ping text;
        Reply (MessageAnswer
                 "✅ API ключ сохранён! Теперь выберите склады для отслеживания."
                 None);
        GetWarehouses text].
Proof.
  set (d1 := insert_user next_user_id default_polling_frequency
               default_notification_threshold (store c) tid text).
  pose proof (insert_user_registers (store c) tid text) as Hreg.
  fold d1 in Hreg.
  assert (E : process_api_key ping directory now next_user_id
                default_polling_frequency default_notification_threshold
                text tid c
              = Reaction (Context d1 (state c))
                  [Reply (MessageAnswer "Проверка ключа, ожидайте" None);
                   Ping text;
                   Reply (MessageAnswer
                            "✅ API ключ сохранён! Теперь выберите склады для отслеживания."
                            None);
                   GetWarehouses text]
                  (Raise ClientError)).
  { unfold process_api_key.
    eapply h_bind_step; [reflexivity | | reflexivity].
    eapply h_bind_step;
      [exact (validate_api_key_answer c text 200 Hping) | | reflexivity].
    change (200 =? 200) with true. cbv iota.
    eapply h_bind_step; [reflexivity | | reflexivity].
    eapply h_bind_step; [reflexivity | | reflexivity].
    eapply h_bind_step; [reflexivity | | reflexivity].
    eapply h_bind_stop. unfold update_warehouses.
    eapply h_bind_step; [reflexivity | | reflexivity].
    now rewrite Hdir. }
  cbv zeta. rewrite E. cbn [after log returned store state].
  repeat split; try reflexivity. exact Hreg.
Qed.


End OnboardingProperties.

Lemma process_api_key_refused_witness :
  ping_401 "bad-key" = Some 401
  /\ 401 <> 200
  /\ process_api_key ping_401 directory_two 9 next_id 5 5 "bad-key" 3003
       (Context db1 (Some entering_api_key))
     = Reaction (Context db1 (Some entering_api_key))
         [Reply (MessageAnswer "Проверка ключа, ожидайте" None);
          Ping "bad-key";
          Reply (MessageAnswer
                   "❌ API ключ недействителен. Пожалуйста, проверьте его и введите заново."
                   None)]
         (Ok tt).
Proof.
  assert (H : 401 <> 200) by lia.
  split; [reflexivity |]. split; [exact H |].
  exact (process_api_key_refused ping_401 directory_two 9 next_id 5 5
           (Context db1 (Some entering_api_key)) "bad-key" 3003 401 eq_refl H).
Defined.


Lemma process_api_key_interrupted_witness :
  ping_ok "key-c" = Some 200
  /\ directory_down "key-c" = DirectoryUnreachable
  /\ returned (process_api_key ping_ok directory_down 9 next_id 5 5 "key-c"
                 3003 (Context db1 (Some entering_api_key)))
     = Raise ClientError
  /\ after (process_api_key ping_ok directory_down 9 next_id 5 5 "key-c" 3003
              (Context db1 (Some entering_api_key)))
     = Context (Db [alice; User 2 3003 "key-c" 5 5] catalog7 [])
               (Some entering_api_key).
Proof.
  split; [reflexivity |]. split; [reflexivity |].
  pose proof (process_api_key_interrupted ping_ok directory_down 9 next_id 5 5
                (Context db1 (Some entering_api_key)) "key-c" 3003
                eq_refl eq_refl) as H.
  cbv zeta in H. destruct H as (R & _).
  split; [exact R | reflexivity].
Defined.


(** ** Where navigation and notifications lead *)

(** X26: on a page that is not negative, the page buttons lead only to
    pages of the catalog: the button "<<" leads to a page that is not
    negative, and the button ">>" is drawn exactly when the next page shows
    at least one warehouse. *)
Theorem navigation_stays_in_catalog (d : db) (sel : list Z) (p : nat) :
  let page := Z.of_nat p in
  let nav := navigation_row page (page * WAREHOUSES_PER_PAGE + WAREHOUSES_PER_PAGE)
               (Z.of_nat (List.length (warehouses d))) in
  last (generate_warehouse_keyboard d sel page) [] = nav
  /\ (In (Button "<<" ("page_" ++ str_of_int (page - 1))) nav <-> 0 <= page - 1)
  /\ (In (Button ">>" ("page_" ++ str_of_int (page + 1))) nav
      <-> paginated_warehouses (warehouses d) (page + 1) <> []).
Proof.
  cbv zeta. set (n := List.length (warehouses d)).
  split; [rewrite generate_warehouse_keyboard_rows; apply last_last |].
  assert (B : forall b : InlineKeyboardButton,
             In b [Button "Сохранить" "done"] -> text b = "Сохранить"%string)
    by (intros b [<- | []]; reflexivity).
  unfold navigation_row, WAREHOUSES_PER_PAGE. split.
  - rewrite !in_app_iff. split.
    + intros [H | [H | H]].
      * destruct (0 <? Z.of_nat p) eqn:P; [apply Z.ltb_lt in P; lia | contradiction].
      * apply B in H. discriminate H.
      * destruct (_ <? _); [| contradiction].
        destruct H as [H | []]. discriminate H.
    + intro H. left.
      replace (0 <? Z.of_nat p) with true by (symmetry; apply Z.ltb_lt; lia).
      now left.
  - replace (Z.of_nat p + 1) with (Z.of_nat (S p)) by lia.
    rewrite page_slice, !in_app_iff. split.
    + intros [H | [H | H]].
      * destruct (0 <? Z.of_nat p); [| contradiction].
        destruct H as [H | []]. discriminate H.
      * apply B in H. discriminate H.
      * destruct (Z.of_nat p * 6 + 6 <? Z.of_nat n) eqn:P; [| contradiction].
        apply Z.ltb_lt in P. intro E.
        apply (f_equal (@List.length warehouse)) in E.
        rewrite length_firstn, length_skipn in E. fold n in E.
        cbn [List.length] in E. lia.
    + intro H. right. right.
      destruct (Z.of_nat p * 6 + 6 <? Z.of_nat n) eqn:P; [now left |].
      apply Z.ltb_ge in P. exfalso. apply H.
      rewrite skipn_all2 by (fold n; lia). apply firstn_nil.
Qed.

(** X27: with distinct user ids, a check that completes for a stored user
    sends its one message to the telegram id of that user's row, and every
    entry it lists qualifies for the threshold the check was given. *)
Theorem notification_reaches_the_checked_user
    (upstream : string -> list Z -> response) (d : db) (u : user)
    (json : list coefficient_dict)
    (Hids : NoDup (map user_id (users d)))
    (Hu : In u (users d))
    (Hsub : warehouses_of_user d (user_id u) <> [])
    (Hok : upstream (api_key u) (warehouses_of_user d (user_id u))
           = Response 200 json) :
  exists good : list coefficient_dict,
    check_coefficients_for_user upstream d (user_id u) (api_key u)
      (notification_threshold u)
    = Run [SelectUserWarehouses (user_id u);
           GetCoefficients (api_key u) (warehouses_of_user d (user_id u));
           SendMessage (Some (telegram_id u))
             (Notification (List.length good) (map line good))]
          (Ok tt)
    /\ Forall (fun c => qualifies (coefficient c) (notification_threshold u) = true)
              good
    /\ incl good json.
Proof.
  assert (T : telegram_id_of d (user_id u) = Some (telegram_id u)).
  { unfold telegram_id_of. clear - Hids Hu.
    induction (users d) as [| v r IH]; [contradiction |]. simpl in *.
    inversion Hids as [| x l Hnot Hnd]; subst.
    destruct Hu as [-> | Hin]; [now rewrite Z.eqb_refl |].
    destruct (Z.eqb_spec (user_id v) (user_id u)) as [E | N]; [| now apply IH].
    exfalso. apply Hnot. rewrite E. now apply in_map. }
  exists (filter (fun c => qualifies (coefficient c) (notification_threshold u))
            json).
  split; [| split].
  - unfold check_coefficients_for_user.
    destruct (warehouses_of_user d (user_id u)) as [| w ws] eqn:E; [congruence |].
    unfold get_coefficients. rewrite Hok. simpl (200 =? 200).
    rewrite bind_assoc, !bind_emit, bind_ret, collect_of_list, bind_lift_ok.
    unfold notify_user. rewrite T. reflexivity.
  - apply Forall_forall. intros c Hc. now apply filter_In in Hc.
  - intros c Hc. now apply filter_In in Hc.
Qed.

Lemma notification_reaches_the_checked_user_witness :
  NoDup (map user_id (users db2))
  /\ In bob (users db2)
  /\ warehouses_of_user db2 (user_id bob) <> []
  /\ upstream_401 (api_key bob) (warehouses_of_user db2 (user_id bob))
     = Response 200 (map entry [PyInt (-1); PyInt 0; PyInt 5; PyInt 6])
  /\ exists good : list coefficient_dict,
       check_coefficients_for_user upstream_401 db2 (user_id bob) (api_key bob)
         (notification_threshold bob)
       = Run [SelectUserWarehouses (user_id bob);
              GetCoefficients (api_key bob) (warehouses_of_user db2 (user_id bob));
              SendMessage (Some (telegram_id bob))
                (Notification (List.length good) (map line good))]
             (Ok tt)
       /\ Forall (fun c => qualifies (coefficient c) (notification_threshold bob)
                           = true) good
       /\ incl good (map entry [PyInt (-1); PyInt 0; PyInt 5; PyInt 6]).
Proof.
  assert (H1 : NoDup (map user_id (users db2))).
  { repeat (constructor; [simpl; intuition discriminate |]). constructor. }
  assert (H2 : In bob (users db2)) by (simpl; auto).
  assert (H3 : warehouses_of_user db2 (user_id bob) <> []) by discriminate.
  split; [exact H1 |]. split; [exact H2 |]. split; [exact H3 |].
  split; [reflexivity |].
  exact (notification_reaches_the_checked_user upstream_401 db2 bob _
           H1 H2 H3 eq_refl).
Defined.
